(** * CleO attendance tracker: session and attendance lifecycle

    A shallow embedding of the session / attendance functions of the CleO
    code base and the properties they satisfy.

    - [SharedHelpers]   : public/js/sharedHelpers.js  (geofence)
    - [StudentHelpers]  : public/js/studentHelpers.js (check-in, check-out,
                          verification response)
    - [DataVisualizer]  : public/js/data-visualizer.js (session creation and
                          activation, attendance listing, manual override)
    - [DataOperations]  : the Cloud Functions data layer (server check-in,
                          session status)
    - [Enrolment]       : public/js/studentHelpers.js (joining and leaving a
                          class, the student's active sessions)

    JavaScript numbers are IEEE-754 binary64 values, i.e. Rocq's primitive
    floats.  Firestore documents whose set of fields depends on the writer
    (attendance records, verification requests, classes, users) are finite
    maps from field names to JavaScript values; session documents, which
    every writer of the code base fills with the same typed fields (a
    [GeoPoint] location and a numeric radius among them), are records. *)

From Stdlib Require Import ZArith String PrimFloat Uint63 SpecFloat FloatOps.
From stdpp Require Import base option list gmap strings pretty.

Open Scope string_scope.

(** ** JavaScript values *)

Module JS.

(** The values that reach the functions below, either as arguments or as
    fields of stored documents.  A property that is missing (or a variable
    that is [undefined]) is [None : option value]. *)
#[local] Set Warnings "-register-all".
Inductive value : Type :=
| VNull
| VBool (b : bool)
| VNum (x : float)
| VStr (s : string)
| VTimestamp (millis : Z)            (* firebase.firestore.Timestamp *)
| VServerTimestamp                   (* FieldValue.serverTimestamp() sentinel *)
| VGeoPoint (latitude longitude : float)  (* firebase.firestore.GeoPoint *)
| VObj (fields : gmap string value). (* plain object *)
#[local] Set Warnings "register-all".

Abbreviation object := (gmap string value).

(** [ToBoolean]: [if (v)], [!v], [v && ...], [v || ...]. *)
Definition truthy (v : option value) : bool :=
  match v with
  | None | Some VNull => false
  | Some (VBool b) => b
  | Some (VNum x) => negb (PrimFloat.is_zero x || PrimFloat.is_nan x)
  | Some (VStr s) => negb (bool_decide (s = ""))
  | Some (VTimestamp _ | VServerTimestamp | VGeoPoint _ _ | VObj _) => true
  end.

Definition typeof (v : option value) : string :=
  match v with
  | None => "undefined"
  | Some (VBool _) => "boolean"
  | Some (VNum _) => "number"
  | Some (VStr _) => "string"
  | Some (VNull | VTimestamp _ | VServerTimestamp | VGeoPoint _ _ | VObj _) =>
      "object"
  end.


(** [v.k] for a [v] that is neither [undefined] nor [null].  A GeoPoint
    exposes its two coordinates; primitives and the other SDK objects have
    none of the properties the code reads.  (An array is the plain object
    keyed by its indices.) *)
Definition prop (v : value) (k : string) : option value :=
  match v with
  | VObj o => o !! k
  | VGeoPoint lat lng =>
      if bool_decide (k = "latitude") then Some (VNum lat)
      else if bool_decide (k = "longitude") then Some (VNum lng)
      else None
  | _ => None
  end.

(** [v && v.k]-style guarded reads, and reads made after [v] was checked to
    be truthy: [undefined] when [v] is missing. *)
Definition prop_of (v : option value) (k : string) : option value :=
  v ≫= λ o, prop o k.

(** [v === s] against a string. *)
Definition is_str (v : option value) (s : string) : bool :=
  match v with
  | Some (VStr s') => bool_decide (s' = s)
  | _ => false
  end.

(** The number held by a value that was checked with [typeof v === 'number']. *)
Definition num (v : option value) : float :=
  match v with
  | Some (VNum x) => x
  | _ => PrimFloat.nan
  end.

(** [a || b]. *)
Definition or_else (a : option value) (b : value) : value :=
  match a with
  | Some v => if truthy a then v else b
  | None => b
  end.

(** Own enumerable string-keyed properties of a string value, as object
    spread sees them: one single-character entry per index. *)
Fixpoint string_entries (i : nat) (s : string) : object :=
  match s with
  | EmptyString => ∅
  | String c s' => <[pretty i := VStr (String c EmptyString)]> (string_entries (S i) s')
  end.

(** [{...v}]: the entries a spread contributes.  [undefined], [null],
    numbers and booleans contribute nothing; SDK objects are opaque to the
    model and contribute nothing either. *)
Definition spread (v : option value) : object :=
  match v with
  | Some (VObj o) => o
  | Some (VStr s) => string_entries 0 s
  | _ => ∅
  end.

(** [{...a, ...b}]: later keys win. *)
Definition merge (a b : object) : object := b ∪ a.

(** [{...o, k: v}] where [v] may be [undefined]. *)
Definition with_field (k : string) (v : option value) (o : object) : object :=
  match v with
  | Some v => <[k := v]> o
  | None => o
  end.

(** An integer as a JavaScript number (exact below 2^53 in magnitude). *)
Definition float_of_Z (z : Z) : float :=
  if (z <? 0)%Z then (- PrimFloat.of_uint63 (Uint63.of_Z (- z)))%float
  else PrimFloat.of_uint63 (Uint63.of_Z z).

(** The built-ins of the JavaScript engine that primitive floats do not
    provide, as an interface. *)
Class Engine := {
  Math_sin : float → float;
  Math_cos : float → float;
  Math_atan2 : float → float → float;
  Number_toString : float → string;
  Date_toLocaleString : Z → string;
}.

(** [`${v}`]: string conversion inside a template literal. *)
Definition toString `{Engine} (v : option value) : string :=
  match v with
  | None => "undefined"
  | Some VNull => "null"
  | Some (VBool b) => if b then "true" else "false"
  | Some (VNum x) => Number_toString x
  | Some (VStr s) => s
  | Some (VTimestamp t) =>
      "Timestamp(seconds=" +:+ pretty (t / 1000)%Z +:+
      ", nanoseconds=" +:+ pretty (t mod 1000 * 1000000)%Z +:+ ")"
  | Some (VServerTimestamp | VGeoPoint _ _ | VObj _) => "[object Object]"
  end.

Definition Math_PI : float := 0x1.921fb54442d18p+1%float.
Definition Math_sqrt : float → float := PrimFloat.sqrt.

(** [Math.round]: the nearest integer, ties towards +infinity; a result
    of zero keeps the sign of the argument. *)
Definition Math_round (x : float) : float :=
  match Prim2SF x with
  | S754_finite s m e =>
      if (0 <=? e)%Z then x
      else
        let n := if s then Z.neg m else Z.pos m in
        let d := (2 ^ (- e))%Z in
        let r := ((2 * n + d) / (2 * d))%Z in
        if (r =? 0)%Z then (if s then PrimFloat.neg_zero else PrimFloat.zero)
        else float_of_Z r
  | _ => x
  end.

End JS.

(** ** The document store *)

Module Firestore.
Import JS.

(** Coordinates of a [GeoPoint]. *)
Record LatLng := { latitude : float; longitude : float }.

(** A document of the [sessions] collection, with the fields its writers
    ([createAttendanceSession], [startAttendanceSession],
    [endAttendanceSession], [updateSessionLocation] and the server's
    [createSession]) store.  [endTime = None] is a [null] end time. *)
Record Session := {
  sessionId : string;
  classId : string;
  teacherId : string;
  startTime : option Z;
  endTime : option Z;
  status : string;
  location : LatLng;
  radius : float;
  additional : option value;
  created_at : Z;
  lastUpdated : option Z;
}.

(** A sub-collection is keyed by the id of its parent document, then by the
    id of the document. *)
Abbreviation subcollection := (gmap string (gmap string object)).

Record Store := {
  sessions : gmap string Session;
  attendance : subcollection;            (* sessions/{sessionId}/attendance *)
  verificationRequests : subcollection;  (* sessions/{sessionId}/verificationRequests *)
  classes : gmap string object;
  classStudents : subcollection;         (* classes/{classId}/students *)
  userClasses : subcollection;           (* userClasses/{studentId}/classes *)
  users : gmap string object;
}.

Definition with_sessions (f : gmap string Session → gmap string Session) (st : Store) : Store :=
  {| sessions := f (sessions st); attendance := attendance st;
     verificationRequests := verificationRequests st; classes := classes st;
     classStudents := classStudents st; userClasses := userClasses st;
     users := users st |}.

Definition with_attendance (f : subcollection → subcollection) (st : Store) : Store :=
  {| sessions := sessions st; attendance := f (attendance st);
     verificationRequests := verificationRequests st; classes := classes st;
     classStudents := classStudents st; userClasses := userClasses st;
     users := users st |}.

Definition with_verificationRequests (f : subcollection → subcollection) (st : Store) : Store :=
  {| sessions := sessions st; attendance := attendance st;
     verificationRequests := f (verificationRequests st); classes := classes st;
     classStudents := classStudents st; userClasses := userClasses st;
     users := users st |}.

Definition with_classStudents (f : subcollection → subcollection) (st : Store) : Store :=
  {| sessions := sessions st; attendance := attendance st;
     verificationRequests := verificationRequests st; classes := classes st;
     classStudents := f (classStudents st); userClasses := userClasses st;
     users := users st |}.

Definition with_userClasses (f : subcollection → subcollection) (st : Store) : Store :=
  {| sessions := sessions st; attendance := attendance st;
     verificationRequests := verificationRequests st; classes := classes st;
     classStudents := classStudents st; userClasses := f (userClasses st);
     users := users st |}.

(** [collection(`.../${parent}/...`)]: the documents under one parent. *)
Definition docs (c : subcollection) (parent : string) : gmap string object :=
  default ∅ (c !! parent).

Definition doc (c : subcollection) (parent id : string) : option object :=
  docs c parent !! id.

Definition put (parent id : string) (d : object) (c : subcollection) : subcollection :=
  <[parent := <[id := d]> (docs c parent)]> c.

Definition remove (parent id : string) (c : subcollection) : subcollection :=
  <[parent := delete id (docs c parent)]> c.

(** What a call observes of its surroundings: the server clock that replaces
    [serverTimestamp()] sentinels when a write commits, the client clock
    behind [new Date()], the browser's [navigator] strings and the id
    [collection.doc()] generates. *)
Record Env := {
  serverNow : Z;
  clientNow : Z;
  clientNowISO : string;
  userAgent : string;
  platform : string;
  autoId : string;
}.

(** A write replaces the [serverTimestamp()] sentinels among the fields it
    carries by the server time. *)
Definition resolve (now : Z) (fields : object) : object :=
  (λ v, match v with VServerTimestamp => VTimestamp now | _ => v end) <$> fields.

(** *** Asynchronous computations that may throw *)

Inductive outcome (A : Type) : Type :=
| Returned (a : A)
| Thrown (message : string).
Arguments Returned {A} a.
Arguments Thrown {A} message.

Definition Async (A : Type) : Type := Store → outcome A * Store.

#[export] Instance Async_ret : MRet Async := λ A a st, (Returned a, st).

#[export] Instance Async_bind : MBind Async := λ A B k m st,
  match m st with
  | (Returned a, st') => k a st'
  | (Thrown e, st') => (Thrown e, st')
  end.

Definition throw {A} (message : string) : Async A := λ st, (Thrown message, st).

(** [if (c) throw new Error(message)]. *)
Definition throw_if (c : bool) (message : string) : Async unit :=
  if c then throw message else mret ().

Definition read {A} (f : Store → A) : Async A := λ st, (Returned (f st), st).
Definition write (f : Store → Store) : Async unit := λ st, (Returned (), f st).

(** [update()] rejects when the document does not exist. *)
Definition no_document : string := "No document to update".

Definition updateSession (id : string) (f : Session → Session) : Async unit :=
  s ← read (λ st, sessions st !! id);
  match s with
  | Some s => write (with_sessions <[id := f s]>)
  | None => throw no_document
  end.

Definition setAttendance (now : Z) (sid uid : string) (fields : object) : Async unit :=
  write (with_attendance (put sid uid (resolve now fields))).

Definition updateAttendance (now : Z) (sid uid : string) (fields : object) : Async unit :=
  d ← read (λ st, doc (attendance st) sid uid);
  match d with
  | Some d => write (with_attendance (put sid uid (resolve now fields ∪ d)))
  | None => throw no_document
  end.

Definition deleteAttendance (sid uid : string) : Async unit :=
  write (with_attendance (remove sid uid)).

Definition updateVerificationRequest (now : Z) (sid uid : string) (fields : object) : Async unit :=
  d ← read (λ st, doc (verificationRequests st) sid uid);
  match d with
  | Some d => write (with_verificationRequests (put sid uid (resolve now fields ∪ d)))
  | None => throw no_document
  end.

(** [new GeoPoint(latitude, longitude)]: the SDK rejects anything but finite
    numbers within the coordinate ranges. *)
Definition in_range (lo x hi : float) : bool :=
  PrimFloat.is_finite x && PrimFloat.leb lo x && PrimFloat.leb x hi.

Definition new_GeoPoint `{Engine} (lat lng : option value) : Async value :=
  throw_if (negb (bool_decide (typeof lat = "number") && in_range (-90) (num lat) 90))
    ("Latitude must be a number between -90 and 90, but was: " +:+ Number_toString (num lat));;
  throw_if (negb (bool_decide (typeof lng = "number") && in_range (-180) (num lng) 180))
    ("Longitude must be a number between -180 and 180, but was: " +:+ Number_toString (num lng));;
  mret (VGeoPoint (num lat) (num lng)).

(** [timestamp.toDate()], in milliseconds; a [TypeError] on a value that is
    not a Timestamp. *)
Definition toDate (what : string) (v : option value) : Async Z :=
  match v with
  | Some (VTimestamp t) => mret t
  | _ => throw (what +:+ ".toDate is not a function")
  end.

(** What an exported helper hands back: [{success: true, ...payload}] or,
    from its [catch] block, [{success: false, error: error.message}].  A
    payload that is an [object] holds the response's other top-level
    fields; a field whose value is [undefined] is left out. *)
Inductive Result (A : Type) : Type :=
| Success (payload : A)
| Failure (error : string).
Arguments Success {A} payload.
Arguments Failure {A} error.

(** [try { body } catch (error) { return {success: false, error: error.message} }] *)
Definition try_catch {A} (body : Async A) (st : Store) : Result A * Store :=
  match body st with
  | (Returned a, st') => (Success a, st')
  | (Thrown e, st') => (Failure e, st')
  end.

End Firestore.

(** ** sharedHelpers.js *)

Module SharedHelpers.
Import JS Firestore.

Section Geofence.
Context `{Engine}.

(** Haversine great-circle distance in meters. *)
Definition calculateDistance (point1 point2 : LatLng) : float :=
  let R := 6371e3%float in
  let φ1 := (latitude point1 * Math_PI / 180)%float in
  let φ2 := (latitude point2 * Math_PI / 180)%float in
  let Δφ := ((latitude point2 - latitude point1) * Math_PI / 180)%float in
  let Δλ := ((longitude point2 - longitude point1) * Math_PI / 180)%float in
  let a := (Math_sin (Δφ / 2) * Math_sin (Δφ / 2) +
            Math_cos φ1 * Math_cos φ2 *
            Math_sin (Δλ / 2) * Math_sin (Δλ / 2))%float in
  let c := (2 * Math_atan2 (Math_sqrt a) (Math_sqrt (1 - a)))%float in
  (R * c)%float.

(** [!loc || typeof loc !== 'object' || typeof loc.latitude !== 'number'
     || typeof loc.longitude !== 'number'] *)
Definition invalid_location (loc : option value) : bool :=
  negb (truthy loc)
  || negb (bool_decide (typeof loc = "object"))
  || negb (bool_decide (typeof (prop_of loc "latitude") = "number"))
  || negb (bool_decide (typeof (prop_of loc "longitude") = "number")).

(** The coordinates of a location that passed the check above. *)
Definition coordinates (loc : option value) : LatLng :=
  {| latitude := num (prop_of loc "latitude");
     longitude := num (prop_of loc "longitude") |}.

Record LocationValidation := {
  isWithinRadius : bool;
  distance : float;
  sessionRadius : float;
  unit_ : string;   (* the response's [unit] *)
}.

Definition validateLocationForSession_body
    (sessionId : string) (studentLocation : option value) : Async LocationValidation :=
  throw_if (bool_decide (sessionId = "")) "Session ID is required";;
  throw_if (invalid_location studentLocation)
    "Valid student location is required (must include latitude and longitude)";;
  sessionDoc ← read (λ st, sessions st !! sessionId);
  match sessionDoc with
  | None => throw "Session not found"
  | Some sessionData =>
      throw_if (negb (bool_decide (status sessionData = "active")))
        ("Session is " +:+ status sessionData +:+ ", not active");;
      let sessionLocation :=
        {| latitude := latitude (location sessionData);
           longitude := longitude (location sessionData) |} in
      let distance := calculateDistance sessionLocation (coordinates studentLocation) in
      let isWithinRadius := PrimFloat.leb distance (radius sessionData) in
      mret {| isWithinRadius := isWithinRadius;
              distance := distance;
              sessionRadius := radius sessionData;
              unit_ := "meters" |}
  end.

Definition validateLocationForSession
    (sessionId : string) (studentLocation : option value)
  : Store → Result LocationValidation * Store :=
  try_catch (validateLocationForSession_body sessionId studentLocation).

End Geofence.
End SharedHelpers.

(** ** studentHelpers.js *)

Module StudentHelpers.
Import JS Firestore SharedHelpers.

Section Student.
Context `{Engine} (env : Env).

(** The result of an exported helper, seen from a caller that awaits it. *)
Definition await {A} (call : Store → Result A * Store) : Async (Result A) :=
  λ st, let '(r, st') := call st in (Returned r, st').

Definition checkInToSession_body
    (sessionId studentId : string) (locationData : option value)
    (additionalData : object) : Async object :=
  throw_if (bool_decide (sessionId = "")) "Session ID is required";;
  throw_if (bool_decide (studentId = "")) "Student ID is required";;
  throw_if (invalid_location locationData) "Valid location data is required";;
  (* Get the session details *)
  sessionDoc ← read (λ st, sessions st !! sessionId);
  match sessionDoc with
  | None => throw "Session not found"
  | Some sessionData =>
      (* Check if the session is active *)
      throw_if (negb (bool_decide (status sessionData = "active")))
        ("Session is " +:+ status sessionData +:+ ", not active");;
      (* Check if student is enrolled in this class *)
      let classId := Firestore.classId sessionData in
      studentClassDoc ← read (λ st, doc (userClasses st) studentId classId);
      throw_if (negb (bool_decide (is_Some studentClassDoc)))
        "You are not enrolled in this class";;
      (* Check if student already checked in *)
      attendanceDoc ← read (λ st, doc (attendance st) sessionId studentId);
      throw_if (bool_decide (is_Some attendanceDoc))
        "You have already checked in to this session";;
      (* Validate location *)
      locationValidation ← await (validateLocationForSession sessionId locationData);
      match locationValidation with
      | Failure error => throw ("Location validation failed: " +:+ error)
      | Success data =>
          let isWithinRadius := isWithinRadius data in
          let distance := distance data in
          (* Create attendance record *)
          checkInLocation ← new_GeoPoint (prop_of locationData "latitude")
                                         (prop_of locationData "longitude");
          let attendanceData : object := list_to_map [
            ("studentId", VStr studentId);
            ("classId", VStr classId);
            ("checkInTime", VServerTimestamp);
            ("checkInLocation", checkInLocation);
            ("checkOutTime", VNull);
            ("status", VStr (if isWithinRadius then "verified" else "failed_location"));
            ("distance", VNum distance);
            ("isGpsVerified", VBool isWithinRadius);
            ("deviceInfo", VObj (list_to_map [
               ("userAgent", VStr (userAgent env));
               ("platform", VStr (platform env))]));
            ("additional", VObj additionalData);
            ("lastUpdated", VServerTimestamp)] in
          setAttendance (serverNow env) sessionId studentId attendanceData;;
          mret {[ "data" := VObj (
            <["message" := VStr (if isWithinRadius
                then "Check-in successful! Your attendance has been verified."
                else "Check-in recorded, but you are outside the allowed radius.")]>
            (<["additional" := VObj additionalData]>
            (<["isWithinRadius" := VBool isWithinRadius]>
            (<["status" := default VNull (attendanceData !! "status")]>
             attendanceData)))) ]}
      end
  end.

Definition checkInToSession
    (sessionId studentId : string) (locationData : option value)
    (additionalData : object) : Store → Result object * Store :=
  try_catch (checkInToSession_body sessionId studentId locationData additionalData).

Definition checkOutFromSession_body
    (sessionId studentId : string) (additionalData : object) : Async object :=
  throw_if (bool_decide (sessionId = "")) "Session ID is required";;
  throw_if (bool_decide (studentId = "")) "Student ID is required";;
  (* Get the session to check if it exists *)
  sessionDoc ← read (λ st, sessions st !! sessionId);
  match sessionDoc with
  | None => throw "Session not found"
  | Some sessionData =>
      (* Check if session is active *)
      throw_if (negb (bool_decide (status sessionData = "active")))
        "Cannot check out from an inactive session";;
      (* Get the attendance record *)
      attendanceDoc ← read (λ st, doc (attendance st) sessionId studentId);
      match attendanceDoc with
      | None =>
          throw "No attendance record found. You must check in before you can check out."
      | Some attendanceData =>
          (* Check if already checked out *)
          if truthy (attendanceData !! "checkOutTime") then
            mret (list_to_map [
              ("message", VStr "You have already checked out from this session");
              ("data", VObj attendanceData)])
          else
            (* Prepare update data *)
            let now := VServerTimestamp in
            (* Merge with existing additional data if present *)
            let mergedAdditionalData : object :=
              if truthy (attendanceData !! "additional")
                 && bool_decide (typeof (attendanceData !! "additional") = "object")
              then merge (spread (attendanceData !! "additional")) additionalData
              else additionalData in
            (* Checkout-specific data goes in a nested object *)
            let mergedAdditionalData : object :=
              if (0 <? size additionalData)%nat then
                <["checkoutInfo" := VObj (
                    merge (<["timestamp" := VStr (clientNowISO env)]>
                             (spread (mergedAdditionalData !! "checkoutInfo")))
                          additionalData)]> mergedAdditionalData
              else mergedAdditionalData in
            (* Calculate attendance duration if possible *)
            '(durationMinutes, mergedAdditionalData) ←
              (if truthy (attendanceData !! "checkInTime") then
                 checkInTime ← toDate "attendanceData.checkInTime" (attendanceData !! "checkInTime");
                 let now := clientNow env in
                 let durationMinutes :=
                   VNum (Math_round (float_of_Z (now - checkInTime) / (1000 * 60))) in
                 mret (durationMinutes,
                       <["durationMinutes" := durationMinutes]> mergedAdditionalData)
               else mret (VNull, mergedAdditionalData));
            (* Update the attendance record *)
            let updateData : object := list_to_map [
              ("checkOutTime", now);
              ("lastUpdated", now);
              ("additional", VObj mergedAdditionalData)] in
            (* If the student was not verified yet, mark as early checkout *)
            let updateData : object :=
              if is_str (attendanceData !! "status") "pending_verification"
                 || is_str (attendanceData !! "status") "pending_checkin"
              then <["status" := VStr "checked_out_early_before_verification"]> updateData
              else updateData in
            updateAttendance (serverNow env) sessionId studentId updateData;;
            mret (list_to_map [
              ("message", VStr "Checked out successfully");
              ("data", VObj (
                 with_field "checkInTime" (attendanceData !! "checkInTime") (
                 with_field "status"
                   (if truthy (updateData !! "status") then updateData !! "status"
                    else attendanceData !! "status") (
                 list_to_map [
                   ("sessionId", VStr sessionId);
                   ("studentId", VStr studentId);
                   ("checkOutTime", now);
                   ("durationMinutes", durationMinutes);
                   ("additional", VObj mergedAdditionalData)]))))])
      end
  end.

Definition checkOutFromSession
    (sessionId studentId : string) (additionalData : object)
  : Store → Result object * Store :=
  try_catch (checkOutFromSession_body sessionId studentId additionalData).

Definition respondToVerificationRequest_body
    (sessionId studentId : string) (verificationData : option value) : Async object :=
  throw_if (bool_decide (sessionId = "")) "Session ID is required";;
  throw_if (bool_decide (studentId = "")) "Student ID is required";;
  throw_if (negb (truthy verificationData)
            || negb (bool_decide (typeof verificationData = "object")))
    "Valid verification data is required";;
  (* Get the session details *)
  sessionDoc ← read (λ st, sessions st !! sessionId);
  match sessionDoc with
  | None => throw "Session not found"
  | Some sessionData =>
      (* Check if the session is active *)
      throw_if (negb (bool_decide (status sessionData = "active")))
        ("Session is " +:+ status sessionData +:+ ", not active");;
      (* Check if student has checked in *)
      attendanceDoc ← read (λ st, doc (attendance st) sessionId studentId);
      match attendanceDoc with
      | None => throw "You have not checked in to this session"
      | Some attendanceData =>
          (* Check if there's an active verification request for this student *)
          verificationRequestDoc ← read (λ st, doc (verificationRequests st) sessionId studentId);
          match verificationRequestDoc with
          | None => throw "No verification request found"
          | Some verificationRequestData =>
              throw_if (negb (is_str (verificationRequestData !! "status") "pending"))
                ("Verification request is " +:+
                 toString (verificationRequestData !! "status") +:+ ", not pending");;
              (* Extract additional data if it exists *)
              let additional := or_else (prop_of verificationData "additional") (VObj ∅) in
              (* Process location data if provided *)
              let location := prop_of verificationData "location" in
              locationValidationResult ←
                (if truthy location
                 then r ← await (validateLocationForSession sessionId location); mret (Some r)
                 else mret None);
              let within :=
                match locationValidationResult with
                | Some (Success data) => isWithinRadius data
                | _ => false
                end in
              (* Copy of the verification data without the additional property *)
              let verificationDataCopy := delete "additional" (spread verificationData) in
              (* Update verification request status *)
              updateVerificationRequest (serverNow env) sessionId studentId (list_to_map [
                ("status", VStr "completed");
                ("responseTime", VServerTimestamp);
                ("responseData", VObj (<["additional" := additional]> verificationDataCopy));
                ("lastUpdated", VServerTimestamp)]);;
              (* Handle existing additional data in attendance record *)
              let mergedAdditionalData :=
                if truthy (attendanceData !! "additional")
                then VObj (merge (spread (attendanceData !! "additional"))
                                 (spread (Some additional)))
                else additional in
              (* Update attendance record if location is provided and valid *)
              (if truthy location then
                 let updateData : object := list_to_map [
                   ("verificationResponseTime", VServerTimestamp);
                   ("lastUpdated", VServerTimestamp);
                   ("additional", mergedAdditionalData)] in
                 let updateData : object :=
                   if within
                   then <["status" := VStr "verified"]>
                        (<["isGpsVerified" := VBool true]> updateData)
                   else updateData in
                 updateAttendance (serverNow env) sessionId studentId updateData
               else
                 (* Just update the additional data if no location was provided *)
                 updateAttendance (serverNow env) sessionId studentId (list_to_map [
                   ("verificationResponseTime", VServerTimestamp);
                   ("lastUpdated", VServerTimestamp);
                   ("additional", mergedAdditionalData)]));;
              mret {[ "data" := VObj (
                with_field "verified"
                  (match locationValidationResult with
                   | None => None
                   | Some _ => Some (VBool within)
                   end)
                  (list_to_map [
                    ("message", VStr "Verification response submitted successfully");
                    ("additionalData", mergedAdditionalData)])) ]}
          end
      end
  end.

Definition respondToVerificationRequest
    (sessionId studentId : string) (verificationData : option value)
  : Store → Result object * Store :=
  try_catch (respondToVerificationRequest_body sessionId studentId verificationData).

End Student.
End StudentHelpers.

(** ** data-visualizer.js (teacher-side session helpers) *)

Module DataVisualizer.
Import JS Firestore SharedHelpers.

Section Teacher.
Context `{Engine} (env : Env).

(** [for (const x of xs) await f(x)] *)
Definition for_each {A} (xs : list A) (f : A → Async unit) : Async unit :=
  foldr (λ x rest, f x;; rest) (mret ()) xs.

(** [collection.doc(id)] wants a non-empty string. *)
Definition doc_id (v : option value) : Async string :=
  match v with
  | Some (VStr s) =>
      if bool_decide (s = "") then throw "Document path must be a non-empty string"
      else mret s
  | _ => throw "Document path must be a non-empty string"
  end.

(** [additional.classReference = ref] in strict mode: a property of a plain
    object is set; a primitive refuses it; on an SDK object the extra
    property is no part of the value the store keeps. *)
Definition set_classReference (additional ref : value) : Async value :=
  match additional with
  | VObj o => mret (VObj (<["classReference" := ref]> o))
  | VTimestamp _ | VServerTimestamp | VGeoPoint _ _ => mret additional
  | VNull | VBool _ | VNum _ | VStr _ =>
      throw ("Cannot create property 'classReference' on " +:+
             typeof (Some additional) +:+ " '" +:+ toString (Some additional) +:+ "'")
  end.

(** The loop over the sessions of the class that are marked active: is one
    of them truly active (no end time), and which ones carry an end time.
    [scan_step] is the body of the loop. *)
Definition scan_step (acc : bool * list string) (sessionDoc : string * Session)
  : bool * list string :=
  let '(hasActiveSession, sessionsToFix) := acc in
  let '(id, sessionData) := sessionDoc in
  match endTime sessionData with
  | None => (true, sessionsToFix)
  | Some _ => (hasActiveSession, (sessionsToFix ++ [id])%list)
  end.

Definition scan_active (docs : list (string * Session)) : bool * list string :=
  foldl scan_step (false, []) docs.

Definition mark_ended (now : Z) (s : Session) : Session :=
  {| sessionId := sessionId s; classId := classId s; teacherId := teacherId s;
     startTime := startTime s; endTime := endTime s;
     status := "ended";
     location := location s; radius := radius s; additional := additional s;
     created_at := created_at s;
     lastUpdated := Some now |}.

(** The permission check of [createAttendanceSession]: the teacher id
    against every field of the class document that may name its teacher. *)
Definition isTeacherAuthorized (teacherId : string) (classData : object) : bool :=
  (* Check standard fields *)
  is_str (classData !! "teacherId") teacherId
  || is_str (classData !! "teacherUid") teacherId
  (* Check possible alternate formats/keys *)
  || is_str (classData !! "teacher_id") teacherId
  || is_str (classData !! "teacher_uid") teacherId
  (* Check if there's a "teacher" object with an id field *)
  || (truthy (classData !! "teacher")
      && is_str (prop_of (classData !! "teacher") "id") teacherId)
  || (truthy (classData !! "teacher")
      && is_str (prop_of (classData !! "teacher") "uid") teacherId)
  (* Check nested fields in additional data *)
  || (truthy (classData !! "additional")
      && is_str (prop_of (classData !! "additional") "teacherId") teacherId)
  || (truthy (classData !! "additional")
      && is_str (prop_of (classData !! "additional") "teacherUid") teacherId).

Definition createAttendanceSession_body
    (teacherId : string) (sessionData : option value) : Async Session :=
  throw_if (bool_decide (teacherId = "")) "Teacher ID is required";;
  throw_if (negb (truthy sessionData) || negb (truthy (prop_of sessionData "classId")))
    "Class ID is required";;
  throw_if (invalid_location (prop_of sessionData "location"))
    "Valid location data is required";;
  throw_if (negb (truthy (prop_of sessionData "radius"))
            || negb (bool_decide (typeof (prop_of sessionData "radius") = "number")))
    "Valid radius is required";;
  (* Get the class to check if it exists and if the teacher is the owner *)
  classId ← doc_id (prop_of sessionData "classId");
  classDoc ← read (λ st, classes st !! classId);
  match classDoc with
  | None => throw "Class not found"
  | Some classData =>
      throw_if (negb (isTeacherAuthorized teacherId classData))
        "You do not have permission to create sessions for this class";;
      (* Check for already active sessions for this class *)
      activeSessionsSnapshot ← read (λ st,
        map_to_list (filter (λ '(_, s), Firestore.classId s = classId ∧ status s = "active")
                            (sessions st)));
      let '(hasActiveSession, sessionsToFix) := scan_active activeSessionsSnapshot in
      throw_if hasActiveSession "There is already an active session for this class";;
      (* All sessions have end times: mark them as ended *)
      for_each sessionsToFix (λ docRef, updateSession docRef (mark_ended (serverNow env)));;
      (* Extract additional data if it exists *)
      let additional := or_else (prop_of sessionData "additional") (VObj ∅) in
      (* Create the session *)
      let sessionRef := autoId env in
      additional ← set_classReference additional (VObj (list_to_map [
        ("id", VStr classId);
        ("teacherId", or_else (classData !! "teacherId") VNull);
        ("teacherUid", or_else (classData !! "teacherUid") VNull);
        ("name", or_else (classData !! "name") (VStr "Unknown Class"))]));
      geoPoint ← new_GeoPoint (prop_of (prop_of sessionData "location") "latitude")
                              (prop_of (prop_of sessionData "location") "longitude");
      let fullSessionData :=
        {| sessionId := sessionRef;
           classId := classId;
           teacherId := teacherId;
           startTime := Some (serverNow env);
           endTime := None;
           status := "active";
           location := coordinates (Some geoPoint);
           radius := num (prop_of sessionData "radius");
           additional := Some additional;
           created_at := serverNow env;
           lastUpdated := None |} in
      write (with_sessions <[sessionRef := fullSessionData]>);;
      mret fullSessionData
  end.

(** Payload: the [data] of the response, the session as it is stored. *)
Definition createAttendanceSession
    (teacherId : string) (sessionData : option value) : Store → Result Session * Store :=
  try_catch (createAttendanceSession_body teacherId sessionData).

Definition activate (now : Z) (s : Session) : Session :=
  {| sessionId := sessionId s; classId := classId s; teacherId := teacherId s;
     startTime := Some now;
     endTime := None;
     status := "active";
     location := location s; radius := radius s; additional := additional s;
     created_at := created_at s; lastUpdated := lastUpdated s |}.

Definition startAttendanceSession_body (sessionId teacherId : string) : Async object :=
  throw_if (bool_decide (sessionId = "")) "Session ID is required";;
  throw_if (bool_decide (teacherId = "")) "Teacher ID is required";;
  (* Get the session to check if it exists and if the teacher is the owner *)
  sessionDoc ← read (λ st, sessions st !! sessionId);
  match sessionDoc with
  | None => throw "Session not found"
  | Some sessionData =>
      (* Check if the teacher is the owner of the session *)
      throw_if (negb (bool_decide (Firestore.teacherId sessionData = teacherId)))
        "You do not have permission to start this session";;
      (* Check if session is already active *)
      if bool_decide (status sessionData = "active") then
        mret {[ "message" := VStr "Session is already active" ]}
      else
        (* Check if session is ended *)
        throw_if (bool_decide (status sessionData = "ended"))
          "Cannot restart an ended session";;
        (* Update session status to active *)
        updateSession sessionId (activate (serverNow env));;
        mret {[ "message" := VStr "Session started successfully" ]}
  end.

Definition startAttendanceSession (sessionId teacherId : string)
  : Store → Result object * Store :=
  try_catch (startAttendanceSession_body sessionId teacherId).

(** [t ? t.toDate().toLocaleString() : 'N/A'] *)
Definition formatted (what : string) (t : option value) : Async value :=
  if truthy t then d ← toDate what t; mret (VStr (Date_toLocaleString d))
  else mret (VStr "N/A").

(** One turn of the loop over the enrolled students: the entry pushed for
    [studentId].  [attendanceMap] is a plain object used as a map from
    student ids to records; document ids are store-generated and never name
    a member of [Object.prototype], so its lookup is the finite-map
    lookup. *)
Definition attendance_entry
    (attendanceMap : gmap string object) (studentId : string) : Async object :=
  userDoc ← read (λ st, users st !! studentId);
  let userData : object :=
    default (list_to_map [("displayName", VStr "Unknown Student");
                          ("email", VStr "unknown")]) userDoc in
  let attendanceRecord := attendanceMap !! studentId in
  let record : object := list_to_map [
    ("studentId", VStr studentId);
    ("displayName", or_else (userData !! "displayName") (VStr "No Name"));
    ("email", or_else (userData !! "email") (VStr "No Email"))] in
  match attendanceRecord with
  | Some attendanceRecord =>
      checkInTimeFormatted ←
        formatted "attendanceRecord.checkInTime" (attendanceRecord !! "checkInTime");
      checkOutTimeFormatted ←
        formatted "attendanceRecord.checkOutTime" (attendanceRecord !! "checkOutTime");
      mret (with_field "isGpsVerified" (attendanceRecord !! "isGpsVerified")
           (with_field "distance" (attendanceRecord !! "distance")
           (<["checkOutTimeFormatted" := checkOutTimeFormatted]>
           (with_field "checkOutTime" (attendanceRecord !! "checkOutTime")
           (<["checkInTimeFormatted" := checkInTimeFormatted]>
           (with_field "checkInTime" (attendanceRecord !! "checkInTime")
           (with_field "status" (attendanceRecord !! "status")
           (<["attended" := VBool true]> record))))))))
  | None =>
      mret (<["status" := VStr "absent"]> (<["attended" := VBool false]> record))
  end.

Definition count_status (s : string) (records : list object) : nat :=
  length (filter (λ record, is_str (record !! "status") s) records).

(** The [data] of the attendance response. *)
Record AttendanceReport := {
  report_sessionId : string;
  report_classId : string;
  report_status : string;
  startTimeFormatted : string;
  endTimeFormatted : string;
  enrolledStudentCount : nat;
  presentCount : nat;
  verified : nat;
  failed : nat;
  earlyCheckout : nat;
  absent : nat;
  attendanceRate : float;
  records : list object;
}.

Definition getSessionAttendance_body (sessionId teacherId : string) : Async AttendanceReport :=
  throw_if (bool_decide (sessionId = "")) "Session ID is required";;
  (* Get the session to check if it exists *)
  sessionDoc ← read (λ st, sessions st !! sessionId);
  match sessionDoc with
  | None => throw "Session not found"
  | Some sessionData =>
      (* If teacherId is provided, check if they're the owner *)
      throw_if (negb (bool_decide (teacherId = ""))
                && negb (bool_decide (Firestore.teacherId sessionData = teacherId)))
        "You do not have permission to view attendance for this session";;
      (* Get all students in the class (in the order of the snapshot, which
         nothing below depends on) *)
      enrolledStudentIds ← read (λ st,
        (map_to_list (docs (classStudents st) (classId sessionData))).*1);
      (* Get attendance records for this session *)
      attendanceMap ← read (λ st, docs (attendance st) sessionId);
      (* The entries of the enrolled students; a student whose entry throws
         is logged and skipped *)
      attendanceRecords ← read (λ st,
        omap (λ studentId,
                match attendance_entry attendanceMap studentId st with
                | (Returned record, _) => Some record
                | (Thrown _, _) => None
                end) enrolledStudentIds);
      (* Calculate attendance statistics *)
      let verified := count_status "verified" attendanceRecords in
      let failed := count_status "failed_location" attendanceRecords in
      let earlyCheckout :=
        count_status "checked_out_early_before_verification" attendanceRecords in
      let absent := count_status "absent" attendanceRecords in
      let count (n : nat) := float_of_Z (Z.of_nat n) in
      let attendanceRate :=
        if (0 <? length enrolledStudentIds)%nat
        then (count (verified + failed + earlyCheckout)%nat
              / count (length enrolledStudentIds) * 100)%float
        else 0%float in
      mret {| report_sessionId := sessionId;
              report_classId := classId sessionData;
              report_status := status sessionData;
              startTimeFormatted :=
                from_option Date_toLocaleString "N/A" (startTime sessionData);
              endTimeFormatted :=
                from_option Date_toLocaleString "N/A" (endTime sessionData);
              enrolledStudentCount := length enrolledStudentIds;
              presentCount := (verified + failed + earlyCheckout)%nat;
              verified := verified;
              failed := failed;
              earlyCheckout := earlyCheckout;
              absent := absent;
              attendanceRate := (Math_round (attendanceRate * 100) / 100)%float;
              records := attendanceRecords |}
  end.

Definition getSessionAttendance (sessionId teacherId : string)
  : Store → Result AttendanceReport * Store :=
  try_catch (getSessionAttendance_body sessionId teacherId).

Definition validStatuses : list string :=
  ["verified"; "failed_location"; "checked_out_early_before_verification"; "absent"].

(** [validStatuses.join(', ')] *)
Definition join (sep : string) (l : list string) : string :=
  match l with
  | [] => ""
  | x :: l => foldl (λ acc y, acc +:+ sep +:+ y) x l
  end.

Definition manuallyMarkAttendance_body
    (sessionId studentId status teacherId : string) (additionalData : object)
  : Async object :=
  throw_if (bool_decide (sessionId = "")) "Session ID is required";;
  throw_if (bool_decide (studentId = "")) "Student ID is required";;
  throw_if (bool_decide (status = "")) "Status is required";;
  throw_if (bool_decide (teacherId = "")) "Teacher ID is required";;
  (* Validate status *)
  throw_if (negb (bool_decide (status ∈ validStatuses)))
    ("Invalid status. Must be one of: " +:+ join ", " validStatuses);;
  (* Get the session to check if it exists and if the teacher is the owner *)
  sessionDoc ← read (λ st, sessions st !! sessionId);
  match sessionDoc with
  | None => throw "Session not found"
  | Some sessionData =>
      (* Check if the teacher is the owner of the session *)
      throw_if (negb (bool_decide (Firestore.teacherId sessionData = teacherId)))
        "You do not have permission to update attendance for this session";;
      (* Get the attendance record if it exists *)
      attendanceDoc ← read (λ st, doc (attendance st) sessionId studentId);
      (* Check if student is enrolled in the class *)
      studentClassDoc ← read (λ st, doc (classStudents st) (classId sessionData) studentId);
      throw_if (negb (bool_decide (is_Some studentClassDoc)))
        "Student is not enrolled in this class";;
      (if bool_decide (status = "absent") then
         (* If marking as absent and there is an attendance record, delete it *)
         match attendanceDoc with
         | Some _ => deleteAttendance sessionId studentId
         | None => mret ()
         end
       else
         (* For other statuses, create or update the attendance record *)
         let now := VServerTimestamp in
         match attendanceDoc with
         | Some existingData =>
             (* Merge additional data with existing additional data if present *)
             let mergedAdditionalData :=
               if truthy (existingData !! "additional")
               then merge (spread (existingData !! "additional")) additionalData
               else additionalData in
             let updateData : object := list_to_map [
               ("status", VStr status);
               ("lastUpdated", now);
               ("manuallyUpdated", VBool true);
               ("manuallyUpdatedBy", VStr teacherId);
               ("additional", VObj mergedAdditionalData)] in
             updateAttendance (serverNow env) sessionId studentId updateData
         | None =>
             (* Create new attendance record *)
             let attendanceData : object := list_to_map [
               ("studentId", VStr studentId);
               ("classId", VStr (classId sessionData));
               ("checkInTime", now);
               ("checkOutTime", VNull);
               ("status", VStr status);
               ("isGpsVerified", VBool (bool_decide (status = "verified")));
               ("manuallyCreated", VBool true);
               ("manuallyCreatedBy", VStr teacherId);
               ("lastUpdated", now);
               ("additional", VObj additionalData)] in
             setAttendance (serverNow env) sessionId studentId attendanceData
         end);;
      mret (list_to_map [
        ("message", VStr ("Student attendance successfully marked as '" +:+ status +:+ "'"));
        ("status", VStr status);
        ("additionalData", VObj additionalData)])
  end.

Definition manuallyMarkAttendance
    (sessionId studentId status teacherId : string) (additionalData : object)
  : Store → Result object * Store :=
  try_catch (manuallyMarkAttendance_body sessionId studentId status teacherId additionalData).

(** [update({status: 'ended', endTime: serverTimestamp()})] *)
Definition finish (now : Z) (s : Session) : Session :=
  {| sessionId := sessionId s; classId := classId s; teacherId := teacherId s;
     startTime := startTime s;
     endTime := Some now;
     status := "ended";
     location := location s; radius := radius s; additional := additional s;
     created_at := created_at s; lastUpdated := lastUpdated s |}.

Definition endAttendanceSession_body (sessionId teacherId : string) : Async object :=
  throw_if (bool_decide (sessionId = "")) "Session ID is required";;
  throw_if (bool_decide (teacherId = "")) "Teacher ID is required";;
  (* Get the session to check if it exists and if the teacher is the owner *)
  sessionDoc ← read (λ st, sessions st !! sessionId);
  match sessionDoc with
  | None => throw "Session not found"
  | Some sessionData =>
      (* Check if the teacher is the owner of the session *)
      throw_if (negb (bool_decide (Firestore.teacherId sessionData = teacherId)))
        "You do not have permission to end this session";;
      (* Check if session is already ended *)
      if bool_decide (status sessionData = "ended") then
        mret {[ "message" := VStr "Session is already ended" ]}
      else
        (* Update session status to ended *)
        updateSession sessionId (finish (serverNow env));;
        mret {[ "message" := VStr "Session ended successfully" ]}
  end.

Definition endAttendanceSession (sessionId teacherId : string)
  : Store → Result object * Store :=
  try_catch (endAttendanceSession_body sessionId teacherId).

(** Alias for [endAttendanceSession]. *)
Definition endSession (sessionId teacherId : string) : Store → Result object * Store :=
  endAttendanceSession sessionId teacherId.

(** [update({location, radius, additional, lastUpdated})] *)
Definition relocate (now : Z) (location : LatLng) (radius : float) (additional : value)
    (s : Session) : Session :=
  {| sessionId := sessionId s; classId := classId s; teacherId := teacherId s;
     startTime := startTime s; endTime := endTime s; status := status s;
     location := location;
     radius := radius;
     additional := Some additional;
     created_at := created_at s;
     lastUpdated := Some now |}.

Definition updateSessionLocation_body
    (sessionId teacherId : string) (location radius : option value)
    (additionalData : object) : Async object :=
  throw_if (bool_decide (sessionId = "")) "Session ID is required";;
  throw_if (bool_decide (teacherId = "")) "Teacher ID is required";;
  throw_if (invalid_location location) "Valid location data is required";;
  throw_if (negb (bool_decide (typeof radius = "number")) || PrimFloat.leb (num radius) 0)
    "Valid radius is required";;
  (* Get the session to check if it exists and if the teacher is the owner *)
  sessionDoc ← read (λ st, sessions st !! sessionId);
  match sessionDoc with
  | None => throw "Session not found"
  | Some sessionData =>
      (* Check if the teacher is the owner of the session *)
      throw_if (negb (bool_decide (Firestore.teacherId sessionData = teacherId)))
        "You do not have permission to update this session";;
      (* Check if session is active *)
      throw_if (negb (bool_decide (status sessionData = "active")))
        "Cannot update location for an inactive session";;
      (* Process existing additional data *)
      let updatedAdditionalData : object :=
        if truthy (additional sessionData)
        then merge (spread (additional sessionData)) additionalData
        else additionalData in
      (* Update session location and radius *)
      geoPoint ← new_GeoPoint (prop_of location "latitude") (prop_of location "longitude");
      updateSession sessionId
        (relocate (serverNow env) (coordinates (Some geoPoint)) (num radius)
                  (VObj updatedAdditionalData));;
      mret (list_to_map [
        ("message", VStr "Session location updated successfully");
        ("data", VObj (with_field "location" location (list_to_map [
           ("radius", VNum (num radius));
           ("additional", VObj updatedAdditionalData)])))])
  end.

Definition updateSessionLocation
    (sessionId teacherId : string) (location radius : option value)
    (additionalData : object) : Store → Result object * Store :=
  try_catch (updateSessionLocation_body sessionId teacherId location radius additionalData).

(** [where('classId', '==', classId).where('status', '==', 'active')] *)
Definition activeSessions (classId : string) (st : Store) : list (string * Session) :=
  map_to_list (filter (λ '(_, s), Firestore.classId s = classId ∧ status s = "active")
                      (sessions st)).

Definition removeStudentFromClass_body (classId studentId teacherId : string) : Async object :=
  throw_if (bool_decide (classId = "")) "Class ID is required";;
  throw_if (bool_decide (studentId = "")) "Student ID is required";;
  throw_if (bool_decide (teacherId = "")) "Teacher ID is required";;
  (* Get the class to check if it exists and if the teacher is the owner *)
  classDoc ← read (λ st, classes st !! classId);
  match classDoc with
  | None => throw "Class not found"
  | Some classData =>
      (* Check if the teacher is the owner of the class *)
      throw_if (negb (is_str (classData !! "teacherId") teacherId))
        "You do not have permission to remove students from this class";;
      (* Check for active sessions for this class *)
      activeSessions ← read (activeSessions classId);
      throw_if (negb (bool_decide (activeSessions = [])))
        "Cannot remove student while there are active sessions for this class";;
      (* Check if the student is enrolled in this class *)
      classStudentDoc ← read (λ st, doc (classStudents st) classId studentId);
      throw_if (negb (bool_decide (is_Some classStudentDoc)))
        "This student is not enrolled in the class";;
      (* Remove the student from the class: both operations as a batch *)
      write (λ st, with_userClasses (remove studentId classId)
                     (with_classStudents (remove classId studentId) st));;
      mret {[ "message" := VStr "Student removed from class successfully" ]}
  end.

Definition removeStudentFromClass (classId studentId teacherId : string)
  : Store → Result object * Store :=
  try_catch (removeStudentFromClass_body classId studentId teacherId).

End Teacher.
End DataVisualizer.

(** ** The Cloud Functions data layer *)

Module DataOperations.
Import JS Firestore.

Section Server.
Context `{Engine} (env : Env).

(** The same haversine formula as in sharedHelpers.js, with its [toRad]
    helper. *)
Definition calculateDistance (point1 point2 : LatLng) : float :=
  let toRad (value : float) := (value * Math_PI / 180)%float in
  let R := 6371e3%float in
  let φ1 := toRad (latitude point1) in
  let φ2 := toRad (latitude point2) in
  let Δφ := toRad (latitude point2 - latitude point1)%float in
  let Δλ := toRad (longitude point2 - longitude point1)%float in
  let a := (Math_sin (Δφ / 2) * Math_sin (Δφ / 2) +
            Math_cos φ1 * Math_cos φ2 *
            Math_sin (Δλ / 2) * Math_sin (Δλ / 2))%float in
  let c := (2 * Math_atan2 (Math_sqrt a) (Math_sqrt (1 - a)))%float in
  (R * c)%float.






End Server.
End DataOperations.

(** ** studentHelpers.js: enrolment and the student's sessions *)

Module Enrolment.
Import JS Firestore.

(** The first document of a query snapshot: the store lists documents by
    id, in the byte order of the ids. *)
Definition first_doc {A} (docs : list (string * A)) : option (string * A) :=
  foldr (λ d best,
           match best with
           | None => Some d
           | Some b => if String.ltb d.1 b.1 then Some d else Some b
           end) None docs.

(** A write refuses a field whose value is [undefined]. *)
Definition defined (field : string) (v : option value) : Async value :=
  match v with
  | Some v => mret v
  | None => throw ("Unsupported field value: undefined (found in field " +:+ field +:+ ")")
  end.

Section Student.
Context `{Engine} (env : Env).

(** [joinCode.toUpperCase()], a built-in of the engine. *)
Context (String_toUpperCase : string → string).

Definition joinClassWithCode_body
    (studentId joinCode : string) (additionalData : object) : Async object :=
  throw_if (bool_decide (studentId = "")) "Student ID is required";;
  throw_if (bool_decide (joinCode = "")) "Join code is required";;
  (* Normalize the join code to uppercase *)
  let normalizedJoinCode := String_toUpperCase joinCode in
  (* Find the class with the provided join code *)
  classesSnapshot ← read (λ st,
    first_doc (map_to_list
      (filter (λ '(_, c), is_str (c !! "joinCode") normalizedJoinCode) (classes st))));
  match classesSnapshot with
  | None =>
      throw ("Invalid join code: " +:+ normalizedJoinCode +:+
             ". No class found with this code.")
  | Some (classId, classData) =>
      (* Check if student is already enrolled in this class *)
      studentClassDoc ← read (λ st, doc (userClasses st) studentId classId);
      throw_if (bool_decide (is_Some studentClassDoc))
        "You are already enrolled in this class";;
      (* Get teacher information *)
      teacherId ← DataVisualizer.doc_id (classData !! "teacherId");
      teacherDoc ← read (λ st, users st !! teacherId);
      let teacherName :=
        match teacherDoc with
        | Some teacherData => teacherData !! "displayName"
        | None => Some (VStr "Unknown Teacher")
        end in
      let timestamp := VServerTimestamp in
      (* Perform both operations as a batch *)
      let classStudent : object := list_to_map [
        ("joinDate", timestamp);
        ("additional", VObj additionalData)] in
      className ← defined "className" (classData !! "name");
      teacherName ← defined "teacherName" teacherName;
      let studentClass : object := list_to_map [
        ("className", className);
        ("teacherName", teacherName);
        ("joinDate", timestamp);
        ("additional", VObj additionalData)] in
      write (λ st,
        with_userClasses (put studentId classId (resolve (serverNow env) studentClass))
          (with_classStudents (put classId studentId (resolve (serverNow env) classStudent))
             st));;
      mret {[ "data" := VObj (list_to_map [
        ("classId", VStr classId);
        ("className", className);
        ("teacherName", teacherName);
        ("additional", VObj additionalData);
        ("message", VStr ("Successfully joined class: " +:+ toString (Some className)))]) ]}
  end.

Definition joinClassWithCode
    (studentId joinCode : string) (additionalData : object)
  : Store → Result object * Store :=
  try_catch (joinClassWithCode_body studentId joinCode additionalData).

Definition leaveClass_body (studentId classId : string) : Async object :=
  throw_if (bool_decide (studentId = "")) "Student ID is required";;
  throw_if (bool_decide (classId = "")) "Class ID is required";;
  (* Check if student is enrolled in this class *)
  studentClassDoc ← read (λ st, doc (userClasses st) studentId classId);
  throw_if (negb (bool_decide (is_Some studentClassDoc)))
    "You are not enrolled in this class";;
  (* Check for active sessions for this class *)
  activeSessions ← read (DataVisualizer.activeSessions classId);
  throw_if (negb (bool_decide (activeSessions = [])))
    "Cannot leave class with active sessions. Please check out from all active sessions first.";;
  (* Remove the class from student's classes: both operations as a batch *)
  write (λ st, with_classStudents (remove classId studentId)
                 (with_userClasses (remove studentId classId) st));;
  mret {[ "message" := VStr "Successfully left the class" ]}.

Definition leaveClass (studentId classId : string) : Store → Result object * Store :=
  try_catch (leaveClass_body studentId classId).

(** One entry of the list of active sessions: the fields computed for the
    session, and the session document spread over them (its [sessionId] and
    [classId] are those of the document). *)
Record ActiveSession := {
  sessionData : Session;
  className : option value;
  teacherName : option value;
  hasAttended : bool;
  attendanceStatus : option value;
  startTimeFormatted : option string;
}.

Definition batchSize : nat := 10.

(** [for (let i = 0; i < classIds.length; i += batchSize)
       classIds.slice(i, i + batchSize)]: the batches, the loop making at
    most [fuel] turns. *)
Fixpoint batches_from (fuel i : nat) (classIds : list string) : list (list string) :=
  match fuel with
  | O => []
  | S fuel =>
      if (i <? length classIds)%nat
      then take batchSize (drop i classIds) :: batches_from fuel (i + batchSize) classIds
      else []
  end.

(** The entry pushed for one session document of a batch. *)
Definition active_session_entry (studentId : string)
    (userClasses_ : gmap string object) (st : Store)
    (sessionDoc : string * Session) : ActiveSession :=
  let '(sessionId, sessionData) := sessionDoc in
  (* Get class information *)
  let classId := Firestore.classId sessionData in
  let userClassDoc := userClasses_ !! classId in
  let className :=
    match userClassDoc with
    | Some d => d !! "className"
    | None => Some (VStr "Unknown Class")
    end in
  let teacherName :=
    match userClassDoc with
    | Some d => d !! "teacherName"
    | None => Some (VStr "Unknown Teacher")
    end in
  (* Get attendance status for this session *)
  let attendanceDoc := doc (attendance st) sessionId studentId in
  {| sessionData := sessionData;
     className := className;
     teacherName := teacherName;
     hasAttended := bool_decide (is_Some attendanceDoc);
     attendanceStatus :=
       match attendanceDoc with
       | Some d => d !! "status"
       | None => Some (VStr "absent")
       end;
     startTimeFormatted := Date_toLocaleString <$> startTime sessionData |}.

Definition getActiveSessionsForStudent_body (studentId : string) : Async (list ActiveSession) :=
  throw_if (bool_decide (studentId = "")) "Student ID is required";;
  (* Get all classes the student is enrolled in *)
  userClassesSnapshot ← read (λ st, docs (userClasses st) studentId);
  if bool_decide (userClassesSnapshot = ∅) then mret []
  else
    let classIds := (map_to_list userClassesSnapshot).*1 in
    (* Process in batches since 'in' operator has a limit of 10 *)
    read (λ st,
      batch ← batches_from (length classIds) 0 classIds;
      (* Query for active sessions in these classes *)
      active_session_entry studentId userClassesSnapshot st <$>
        map_to_list (filter (λ '(_, s), Firestore.classId s ∈ batch ∧ status s = "active")
                            (sessions st))).

Definition getActiveSessionsForStudent (studentId : string)
  : Store → Result (list ActiveSession) * Store :=
  try_catch (getActiveSessionsForStudent_body studentId).

End Student.
End Enrolment.

(** ** Fixtures for the examples *)

Module Examples.
Import JS Firestore.

(** Series stand-ins for the engine's trigonometry (exact at 0, accurate for
    the small angular differences of a geofence), and plain renderings for
    number and date formatting: enough to run the model on examples. *)
Definition sin_series (x : float) : float :=
  (x - x * x * x / 6 + x * x * x * x * x / 120)%float.

Definition cos_series (x : float) : float :=
  (1 - x * x / 2 + x * x * x * x / 24 - x * x * x * x * x * x / 720)%float.

Definition atan2_series (y x : float) : float :=
  let z := (y / x)%float in
  (z - z * z * z / 3 + z * z * z * z * z / 5)%float.

#[export] Instance series_engine : Engine := {|
  Math_sin := sin_series;
  Math_cos := cos_series;
  Math_atan2 := atan2_series;
  Number_toString := λ _, "<number>";
  Date_toLocaleString := λ t, pretty t;
|}.

(** Ten minutes after the sessions below started. *)
Definition env10 : Env := {|
  serverNow := 1700000600000;
  clientNow := 1700000600000;
  clientNowISO := "2023-11-14T22:23:20.000Z";
  userAgent := "Mozilla/5.0";
  platform := "Linux x86_64";
  autoId := "s2";
|}.

(** A session of class [c1], owned by teacher [t1], centred on
    (40.0000, -75.0000) with a radius of 50 m. *)
Definition session_of (id st : string) (ended : option Z) : Session := {|
  sessionId := id; classId := "c1"; teacherId := "t1";
  startTime := Some 1700000000000%Z; endTime := ended; status := st;
  location := {| latitude := 40; longitude := -75 |}; radius := 50;
  additional := None; created_at := 1700000000000; lastUpdated := None;
|}.

(** Class [c1] with the enrolled student [u1], and the given sessions and
    attendance records. *)
Definition store_of (ss : gmap string Session) (att : subcollection) : Store := {|
  sessions := ss;
  attendance := att;
  verificationRequests := ∅;
  classes := {[ "c1" := {[ "teacherId" := VStr "t1" ]} ]};
  classStudents := {[ "c1" := {[ "u1" := ∅ ]} ]};
  userClasses := {[ "u1" := {[ "c1" := ∅ ]} ]};
  users := ∅;
|}.

Definition point (lat lng : float) : option value :=
  Some (VObj (list_to_map [("latitude", VNum lat); ("longitude", VNum lng)])).

(** The record of [u1] as a verified check-in at the start of the session
    leaves it, and the same record once checked out five minutes later. *)
Definition verified_record : object := list_to_map [
  ("studentId", VStr "u1");
  ("classId", VStr "c1");
  ("checkInTime", VTimestamp 1700000000000);
  ("checkInLocation", VGeoPoint 40 (-75));
  ("checkOutTime", VNull);
  ("status", VStr "verified");
  ("distance", VNum 0);
  ("isGpsVerified", VBool true);
  ("additional", VObj ∅);
  ("lastUpdated", VTimestamp 1700000000000)].


(** The record of [u1] after a check-in outside the radius, and a pending
    verification request for it. *)
Definition failed_record : object := list_to_map [
  ("studentId", VStr "u1");
  ("classId", VStr "c1");
  ("checkInTime", VTimestamp 1700000000000);
  ("checkInLocation", VGeoPoint 40.0009765625 (-75));
  ("checkOutTime", VNull);
  ("status", VStr "failed_location");
  ("distance", VNum 108.5);
  ("isGpsVerified", VBool false);
  ("additional", VObj ∅);
  ("lastUpdated", VTimestamp 1700000000000)].

Definition pending_request : object := list_to_map [
  ("status", VStr "pending");
  ("requestTime", VTimestamp 1700000300000)].

(** The input of a session creation for class [c1] at the usual centre. *)
Definition session_input (radius : float) : option value :=
  Some (VObj (list_to_map [
    ("classId", VStr "c1");
    ("location", VObj (list_to_map [("latitude", VNum 40); ("longitude", VNum (-75))]));
    ("radius", VNum radius)])).

(** [toUpperCase] on ASCII letters. *)
Definition upper_ascii (c : Ascii.ascii) : Ascii.ascii :=
  let n := Ascii.nat_of_ascii c in
  if (97 <=? n)%nat && (n <=? 122)%nat then Ascii.ascii_of_nat (n - 32) else c.

Fixpoint upper (s : string) : string :=
  match s with
  | EmptyString => EmptyString
  | String c s => String (upper_ascii c) (upper s)
  end.

(** Class [c1] of teacher [t1] with its join code, nobody enrolled yet. *)
Definition campus : Store := {|
  sessions := ∅;
  attendance := ∅;
  verificationRequests := ∅;
  classes := {[ "c1" := list_to_map [("teacherId", VStr "t1"); ("name", VStr "Algebra");
                                     ("joinCode", VStr "MATH42")] ]};
  classStudents := ∅;
  userClasses := ∅;
  users := {[ "t1" := {[ "displayName" := VStr "Ada" ]} ]};
|}.

End Examples.

(** * Properties *)

Import JS Firestore SharedHelpers Examples.

(** ** Vocabulary of the statements *)


(** A location that is well formed and within the radius of the session. *)
Definition passes_geofence `{Engine} (s : Session) (loc : option value) : bool :=
  negb (invalid_location loc)
  && PrimFloat.leb (SharedHelpers.calculateDistance (location s) (coordinates loc))
                   (radius s).

(** A session of the class that is marked active and has no end time. *)
Definition truly_active (classId : string) (st : Store) : Prop :=
  ∃ id s, sessions st !! id = Some s
          ∧ Firestore.classId s = classId ∧ status s = "active" ∧ endTime s = None.


(** The repair of the sessions of a class: those marked active become
    ended. *)
Definition reconcile (classId : string) (now : Z) (s : Session) : Session :=
  if bool_decide (Firestore.classId s = classId ∧ status s = "active")
  then DataVisualizer.mark_ended now s else s.


(** Between two stores nothing changed but sessions owned by the teacher,
    and of those neither the owner, the class, the id nor the creation
    time. *)
Definition only_sessions_of (teacherId : string) (st st' : Store) : Prop :=
  with_sessions (λ _, sessions st) st' = st
  ∧ ∀ id, sessions st' !! id = sessions st !! id
          ∨ ∃ s s', sessions st !! id = Some s ∧ sessions st' !! id = Some s'
                    ∧ Firestore.teacherId s = teacherId
                    ∧ Firestore.teacherId s' = teacherId
                    ∧ classId s' = classId s
                    ∧ sessionId s' = sessionId s
                    ∧ created_at s' = created_at s.


(** The two pointers of an enrolment go together: the class among the
    classes of the student, and the student among the students of the
    class. *)
Definition enrolment_paired (st : Store) : Prop :=
  ∀ studentId classId,
    is_Some (doc (userClasses st) studentId classId)
    ↔ is_Some (doc (classStudents st) classId studentId).

(** ** Tactics and general lemmas *)

(** Unfolds the plumbing of [Async] computations. *)
Ltac run :=
  cbv beta iota zeta delta
    [try_catch mbind mret Async_bind Async_ret throw_if throw read write
     StudentHelpers.await negb];
  cbn [orb andb].

Ltac decide_false H := rewrite (bool_decide_eq_false_2 _ H); run.
Ltac decide_true H := rewrite (bool_decide_eq_true_2 _ H); run.
Ltac given H := rewrite H; run.

(** ** Session activation *)

Section Activation.
Context `{Engine} (env : Env).
Import DataVisualizer.

(** C5. Ended is terminal: started again by its owning teacher, a session
    whose status is 'ended' is refused with "Cannot restart an ended session"
    (the InvalidStateTransition of the specification) and the store, hence
    the session with its status, start time and end time, stays as it was;
    a session that is already active is accepted as a no-op. *)
Theorem ended_is_terminal sessionId teacherId st s :
  sessionId ≠ "" → teacherId ≠ "" →
  sessions st !! sessionId = Some s →
  Firestore.teacherId s = teacherId →
  status s = "ended" ∨ status s = "active" →
  startAttendanceSession env sessionId teacherId st =
    (if bool_decide (status s = "ended")
     then Failure "Cannot restart an ended session"
     else Success {[ "message" := VStr "Session is already active" ]},
     st).
Proof.
  intros Hsid Htid Hs Hown Hst.
  unfold startAttendanceSession, startAttendanceSession_body.
  decide_false Hsid. decide_false Htid. given Hs. decide_true Hown.
  destruct Hst as [Hst | Hst]; rewrite Hst; reflexivity.
Qed.

End Activation.

Lemma ended_is_terminal_witness :
  let ended := store_of
    {[ "s1" := session_of "s1" "ended" (Some 1700000300000%Z) ]} ∅ in
  let active := store_of
    {[ "s1" := session_of "s1" "active" None ]} ∅ in
  DataVisualizer.startAttendanceSession env10 "s1" "t1" ended
    = (Failure "Cannot restart an ended session", ended)
  ∧ DataVisualizer.startAttendanceSession env10 "s1" "t1" active
    = (Success {[ "message" := VStr "Session is already active" ]}, active).
Proof.
  split.
  - apply (ended_is_terminal env10 "s1" "t1" _
             (session_of "s1" "ended" (Some 1700000300000%Z)));
      [done | done | reflexivity | reflexivity | left; reflexivity].
  - apply (ended_is_terminal env10 "s1" "t1" _
             (session_of "s1" "active" None));
      [done | done | reflexivity | reflexivity | right; reflexivity].
Defined.

(** ** Check-in *)



Lemma invalid_location_numbers loc :
  invalid_location loc = false →
  typeof (prop_of loc "latitude") = "number" ∧ typeof (prop_of loc "longitude") = "number".
Proof.
  unfold invalid_location. intros Hloc.
  repeat (apply orb_false_elim in Hloc as [Hloc ?]).
  split; eapply bool_decide_eq_true_1; by apply negb_false_iff.
Qed.

Section CheckIn.
Context `{Engine} (env : Env).
Import StudentHelpers DataOperations.

Lemma new_GeoPoint_in_range loc st :
  invalid_location loc = false →
  in_range (-90) (num (prop_of loc "latitude")) 90 = true →
  in_range (-180) (num (prop_of loc "longitude")) 180 = true →
  new_GeoPoint (prop_of loc "latitude") (prop_of loc "longitude") st
  = (Returned (VGeoPoint (num (prop_of loc "latitude")) (num (prop_of loc "longitude"))), st).
Proof.
  intros [Hlat Hlng]%invalid_location_numbers Hlat_range Hlng_range.
  unfold new_GeoPoint.
  decide_true Hlat. decide_true Hlng. rewrite Hlat_range, Hlng_range. reflexivity.
Qed.

(** While a record exists, the client check-in never goes through, whatever
    else holds of the request, and it writes nothing. *)
Lemma checkInToSession_existing_record sessionId studentId locationData additionalData st rec :
  doc (attendance st) sessionId studentId = Some rec →
  ∃ error,
    checkInToSession env sessionId studentId locationData additionalData st
    = (Failure error, st).
Proof.
  intros Hrec. unfold checkInToSession, checkInToSession_body.
  destruct (bool_decide (sessionId = "")); [by eexists|].
  destruct (bool_decide (studentId = "")); [by eexists|].
  destruct (invalid_location locationData); [by eexists|].
  run. destruct (sessions st !! sessionId) as [s|]; [|by eexists].
  destruct (bool_decide (status s = "active")); run; [|by eexists].
  destruct (bool_decide (is_Some (doc (userClasses st) studentId (classId s))));
    run; [|by eexists].
  given Hrec.
  rewrite bool_decide_eq_true_2 by eauto. by eexists.
Qed.


(** C2. A check-in on an active session by an enrolled student without a
    record, at a location the store accepts as a GeoPoint, succeeds and
    creates the record; its status is 'verified' when the haversine distance
    from the session's centre is <= the session's radius and
    'failed_location' otherwise, [isGpsVerified] is that same test, and the
    distance is stored on the record. *)
Theorem check_in_verifies_by_distance sessionId studentId locationData additionalData st s :
  sessionId ≠ "" → studentId ≠ "" →
  invalid_location locationData = false →
  in_range (-90) (num (prop_of locationData "latitude")) 90 = true →
  in_range (-180) (num (prop_of locationData "longitude")) 180 = true →
  sessions st !! sessionId = Some s →
  status s = "active" →
  is_Some (doc (userClasses st) studentId (classId s)) →
  doc (attendance st) sessionId studentId = None →
  let d := SharedHelpers.calculateDistance (location s) (coordinates locationData) in
  let within := PrimFloat.leb d (radius s) in
  ∃ payload rec,
    checkInToSession env sessionId studentId locationData additionalData st
    = (Success payload, with_attendance (put sessionId studentId rec) st)
    ∧ rec !! "status" = Some (VStr (if within then "verified" else "failed_location"))
    ∧ rec !! "isGpsVerified" = Some (VBool within)
    ∧ rec !! "distance" = Some (VNum d).
Proof.
  intros Hsid Huid Hloc Hlat Hlng Hs Hactive Henrolled Hrec d within.
  unfold checkInToSession, checkInToSession_body.
  decide_false Hsid. decide_false Huid. given Hloc. given Hs.
  decide_true Hactive. decide_true Henrolled. given Hrec.
  rewrite bool_decide_eq_false_2 by (by intros [??]). run.
  unfold validateLocationForSession, validateLocationForSession_body.
  decide_false Hsid. given Hloc. given Hs. decide_true Hactive.
  cbv beta iota zeta delta [isWithinRadius distance].
  given (new_GeoPoint_in_range _ st Hloc Hlat Hlng).
  unfold setAttendance. run.
  eexists _, _. split; [reflexivity|].
  repeat split; reflexivity.
Qed.

End CheckIn.



Lemma check_in_verifies_by_distance_witness :
  let st := store_of {[ "s1" := session_of "s1" "active" None ]} ∅ in
  ∃ payload rec,
    StudentHelpers.checkInToSession env10 "s1" "u1" (point 40 (-75)) ∅ st
    = (Success payload, with_attendance (put "s1" "u1" rec) st)
    ∧ rec !! "status" = Some (VStr "verified")
    ∧ rec !! "isGpsVerified" = Some (VBool true)
    ∧ rec !! "distance" = Some (VNum 0).
Proof.
  intros st.
  exact (check_in_verifies_by_distance env10 "s1" "u1"
           (point 40 (-75)) ∅ st
           (session_of "s1" "active" None)
           ltac:(done) ltac:(done) eq_refl eq_refl eq_refl eq_refl eq_refl
           (ex_intro _ ∅ eq_refl) eq_refl).
Defined.

(** The boundary of the geofence is inside it: at a distance equal to the
    radius (here both are 0) the location is within the radius. *)
Example boundary_is_within :
  let centre := {| sessionId := "s1"; classId := "c1"; teacherId := "t1";
                   startTime := Some 1700000000000%Z; endTime := None;
                   status := "active";
                   location := {| latitude := 40; longitude := -75 |}; radius := 0;
                   additional := None; created_at := 1700000000000;
                   lastUpdated := None |} in
  let st := store_of {[ "s1" := centre ]} ∅ in
  (validateLocationForSession "s1" (point 40 (-75)) st).1
  = Success {| isWithinRadius := true; distance := 0; sessionRadius := 0;
               unit_ := "meters" |}.
Proof. reflexivity. Qed.

(** ** Check-out *)

Section CheckOut.
Context `{Engine} (env : Env).
Import StudentHelpers.



End CheckOut.




(** Two check-outs in a row, ten and fifteen minutes after the check-in: the
    second one neither fails nor changes the record written by the first. *)
Example check_out_twice :
  let st := store_of {[ "s1" := session_of "s1" "active" None ]}
              {[ "s1" := {[ "u1" := verified_record ]} ]} in
  let later := {| serverNow := 1700000900000; clientNow := 1700000900000;
                  clientNowISO := "2023-11-14T22:28:20.000Z";
                  userAgent := "Mozilla/5.0"; platform := "Linux x86_64";
                  autoId := "s3" |} in
  let first := StudentHelpers.checkOutFromSession env10 "s1" "u1" ∅ st in
  let second := StudentHelpers.checkOutFromSession later "s1" "u1" ∅ first.2 in
  (∃ payload, second.1 = Success payload)
  ∧ second.2 = first.2
  ∧ doc (attendance second.2) "s1" "u1" ≫= (.!! "checkOutTime")
    = Some (VTimestamp 1700000600000).
Proof. vm_compute. split; [by eexists | done]. Qed.

(** ** Verification response *)

Lemma invalid_location_truthy loc : invalid_location loc = false → truthy loc = true.
Proof.
  unfold invalid_location. intros Hloc.
  repeat (apply orb_false_elim in Hloc as [Hloc ?]). by apply negb_false_iff.
Qed.

Section Verification.
Context `{Engine} (env : Env).
Import StudentHelpers.

(** Without a pending verification request for the pair, the response is
    refused and nothing is written. *)
Lemma respond_without_pending_request sessionId studentId verificationData st :
  (∀ req, doc (verificationRequests st) sessionId studentId = Some req →
          is_str (req !! "status") "pending" = false) →
  ∃ error,
    respondToVerificationRequest env sessionId studentId verificationData st
    = (Failure error, st).
Proof.
  intros Hreq. unfold respondToVerificationRequest, respondToVerificationRequest_body.
  destruct (bool_decide (sessionId = "")); [by eexists|].
  destruct (bool_decide (studentId = "")); [by eexists|].
  destruct (negb (truthy verificationData)
            || negb (bool_decide (typeof verificationData = "object"))); [by eexists|].
  run. destruct (sessions st !! sessionId) as [s|]; [|by eexists].
  destruct (bool_decide (status s = "active")); run; [|by eexists].
  destruct (doc (attendance st) sessionId studentId) as [rec|]; [|by eexists].
  destruct (doc (verificationRequests st) sessionId studentId) as [req|] eqn:Hdoc;
    [|by eexists].
  rewrite (Hreq _ eq_refl). by eexists.
Qed.

(** C9. A verification response is refused unless a request for the pair
    exists with status 'pending'.  With such a request (and a checked-in
    student of an active session) it succeeds: the request becomes
    'completed' and carries the response time, the attendance record carries
    the response time too, and the record becomes 'verified' with
    [isGpsVerified = true] when the payload holds a location within the
    session's radius; otherwise its status and [isGpsVerified] are left as
    they were. *)
Theorem respond_to_verification sessionId studentId verificationData st s rec req :
  sessionId ≠ "" → studentId ≠ "" →
  truthy verificationData = true →
  typeof verificationData = "object" →
  sessions st !! sessionId = Some s →
  status s = "active" →
  doc (attendance st) sessionId studentId = Some rec →
  doc (verificationRequests st) sessionId studentId = Some req →
  is_str (req !! "status") "pending" = true →
  let passes := passes_geofence s (prop_of verificationData "location") in
  (∀ verificationData' st',
     (∀ req', doc (verificationRequests st') sessionId studentId = Some req' →
              is_str (req' !! "status") "pending" = false) →
     ∃ error,
       respondToVerificationRequest env sessionId studentId verificationData' st'
       = (Failure error, st'))
  ∧ ∃ payload req' rec',
      respondToVerificationRequest env sessionId studentId verificationData st
      = (Success payload,
         with_attendance (put sessionId studentId rec')
           (with_verificationRequests (put sessionId studentId req') st))
      ∧ req' !! "status" = Some (VStr "completed")
      ∧ req' !! "responseTime" = Some (VTimestamp (serverNow env))
      ∧ rec' !! "verificationResponseTime" = Some (VTimestamp (serverNow env))
      ∧ rec' !! "status"
        = (if passes then Some (VStr "verified") else rec !! "status")
      ∧ rec' !! "isGpsVerified"
        = (if passes then Some (VBool true) else rec !! "isGpsVerified").
Proof.
  intros Hsid Huid Hvd Hobj Hs Hactive Hrec Hreq Hpending passes.
  split; [intros; by apply respond_without_pending_request|].
  unfold respondToVerificationRequest, respondToVerificationRequest_body.
  decide_false Hsid. decide_false Huid. rewrite Hvd. decide_true Hobj.
  given Hs. decide_true Hactive. given Hrec. given Hreq. given Hpending.
  unfold passes, passes_geofence.
  set (location := prop_of verificationData "location").
  unfold validateLocationForSession, validateLocationForSession_body.
  unfold updateVerificationRequest, updateAttendance. run.
  destruct (truthy location) eqn:Hloc; run.
  - decide_false Hsid.
    destruct (invalid_location location) eqn:Hinv; run.
    + given Hreq. cbn [attendance with_verificationRequests]. given Hrec.
      eexists _, _, _. split; [reflexivity|].
      repeat split; first [by apply lookup_union_Some_l | by apply lookup_union_r].
    + given Hs. decide_true Hactive. given Hreq.
      cbn [attendance with_verificationRequests]. given Hrec.
      cbv beta iota zeta delta [isWithinRadius].
      change (SharedHelpers.calculateDistance _ (coordinates location))
        with (SharedHelpers.calculateDistance (Firestore.location s) (coordinates location)).
      destruct (PrimFloat.leb _ _).
      all: eexists _, _, _; (split; [reflexivity|]).
      all: repeat split; first [by apply lookup_union_Some_l | by apply lookup_union_r].
  - given Hreq. cbn [attendance with_verificationRequests]. given Hrec.
    assert (invalid_location location = true) as ->.
    { destruct (invalid_location location) eqn:Hinv; [done|].
      apply invalid_location_truthy in Hinv. congruence. }
    eexists _, _, _. split; [reflexivity|].
    repeat split; first [by apply lookup_union_Some_l | by apply lookup_union_r].
Qed.

End Verification.

Lemma respond_to_verification_witness :
  let st := with_verificationRequests (λ _, {[ "s1" := {[ "u1" := pending_request ]} ]})
              (store_of {[ "s1" := session_of "s1" "active" None ]}
                        {[ "s1" := {[ "u1" := failed_record ]} ]}) in
  let verificationData := Some (VObj {[ "location" := default VNull (point 40 (-75)) ]}) in
  ∃ payload req' rec',
    StudentHelpers.respondToVerificationRequest env10 "s1" "u1" verificationData st
    = (Success payload,
       with_attendance (put "s1" "u1" rec')
         (with_verificationRequests (put "s1" "u1" req') st))
    ∧ req' !! "status" = Some (VStr "completed")
    ∧ req' !! "responseTime" = Some (VTimestamp 1700000600000)
    ∧ rec' !! "verificationResponseTime" = Some (VTimestamp 1700000600000)
    ∧ rec' !! "status" = Some (VStr "verified")
    ∧ rec' !! "isGpsVerified" = Some (VBool true).
Proof.
  intros st verificationData.
  exact (proj2 (respond_to_verification env10 "s1" "u1" verificationData st
                  (session_of "s1" "active" None) failed_record pending_request
                  ltac:(done) ltac:(done) eq_refl eq_refl eq_refl eq_refl eq_refl
                  eq_refl eq_refl)).
Defined.

(** ** Manual override *)



Lemma spread_falsy v : truthy v = false → spread v = ∅.
Proof.
  destruct v as [[| | |s| | | |]|]; try done.
  intros Hs%negb_false_iff%bool_decide_eq_true_1. by subst.
Qed.

Lemma doc_put c parent key d : doc (put parent key d c) parent key = Some d.
Proof.
  unfold doc, docs, put. rewrite lookup_insert_eq. cbn [from_option id].
  apply lookup_insert_eq.
Qed.

Lemma doc_remove c parent key : doc (remove parent key c) parent key = None.
Proof.
  unfold doc, docs, remove. rewrite lookup_insert_eq. cbn [from_option id].
  apply lookup_delete_eq.
Qed.

Section ManualOverride.
Context `{Engine} (env : Env).
Import DataVisualizer.





End ManualOverride.




(** ** Session creation *)

Lemma run_bind {A B} (m : Async A) (k : A → Async B) st :
  (m ≫= k) st
  = match m st with
    | (Returned a, st') => k a st'
    | (Thrown e, st') => (Thrown e, st')
    end.
Proof. reflexivity. Qed.

Lemma updateSession_existing id f st s :
  sessions st !! id = Some s →
  updateSession id f st = (Returned (), with_sessions <[id := f s]> st).
Proof. intros Hs. unfold updateSession. run. by rewrite Hs. Qed.

Lemma with_sessions_id st : with_sessions (λ _, sessions st) st = st.
Proof. by destruct st. Qed.

Section Creation.
Context `{Engine} (env : Env).
Import DataVisualizer.

(** The loop of [scan_active], started from any accumulator. *)
Lemma scan_active_from docs b0 fix0 :
  let r := foldl scan_step (b0, fix0) docs in
  (r.1 = true ↔ b0 = true ∨ ∃ id s, (id, s) ∈ docs ∧ endTime s = None)
  ∧ ∀ id, id ∈ r.2 ↔ id ∈ fix0 ∨ ∃ s, (id, s) ∈ docs ∧ endTime s ≠ None.
Proof.
  revert b0 fix0. induction docs as [|[id s] docs IH]; intros b0 fix0.
  - cbn. split; [|intros id]; split; try (by left).
    + intros [?|(? & ? & Hnil & _)]; [done|]. by apply elem_of_nil in Hnil.
    + intros [?|(? & Hnil & _)]; [done|]. by apply elem_of_nil in Hnil.
  - cbn [foldl scan_step]. destruct (endTime s) as [t|] eqn:Hend.
    + specialize (IH b0 (fix0 ++ [id])%list).
      destruct (foldl _ _ docs) as [b fix_]. destruct IH as [IHb IHfix]. cbn in *.
      split; [rewrite IHb | intros id'; rewrite IHfix, elem_of_app, list_elem_of_singleton].
      * split; (intros [?|(id' & s' & Hin & Hnone)]; [by left|right]).
        -- exists id', s'. split; [by right|done].
        -- apply elem_of_cons in Hin as [Heq|Hin]; [|by exists id', s'].
           injection Heq as -> ->. congruence.
      * split.
        -- intros [[?| ->]|(s' & Hin & ?)]; [by left|right..].
           ++ exists s. split; [left|congruence].
           ++ exists s'. split; [by right|done].
        -- intros [?|(s' & Hin & ?)]; [by left; left|].
           apply elem_of_cons in Hin as [Heq|Hin]; [|right; by exists s'].
           injection Heq as -> ->. left. by right.
    + specialize (IH true fix0).
      destruct (foldl _ _ docs) as [b fix_]. destruct IH as [IHb IHfix]. cbn in *.
      split; [rewrite IHb | intros id'; rewrite IHfix].
      * split; [|by left]. intros _. right. exists id, s. split; [left|done].
      * split; (intros [?|(s' & Hin & ?)]; [by left|right]).
        -- exists s'. split; [by right|done].
        -- apply elem_of_cons in Hin as [Heq|Hin]; [|by exists s'].
           injection Heq as -> ->. congruence.
Qed.

Lemma scan_active_spec docs b fix_ :
  scan_active docs = (b, fix_) →
  (b = true ↔ ∃ id s, (id, s) ∈ docs ∧ endTime s = None)
  ∧ ∀ id, id ∈ fix_ ↔ ∃ s, (id, s) ∈ docs ∧ endTime s ≠ None.
Proof.
  unfold scan_active. intros Hscan.
  pose proof (scan_active_from docs false []) as Hfrom. rewrite Hscan in Hfrom.
  destruct Hfrom as [Hb Hfix]. cbn in Hb, Hfix.
  split; [rewrite Hb | intros id; rewrite Hfix].
  - split; [intros [?|?]; done | by right].
  - split; [|by right]. intros [Hnil|?]; [|done]. by apply elem_of_nil in Hnil.
Qed.

(** The batch that marks the listed sessions as ended. *)
Lemma for_each_mark_ended now ids st :
  (∀ id, id ∈ ids → is_Some (sessions st !! id)) →
  ∃ m,
    for_each ids (λ docRef, updateSession docRef (mark_ended now)) st
    = (Returned (), with_sessions (λ _, m) st)
    ∧ ∀ k, m !! k = (if bool_decide (k ∈ ids) then mark_ended now <$> sessions st !! k
                     else sessions st !! k).
Proof.
  unfold for_each. revert st. induction ids as [|id ids IH]; intros st Hids.
  - exists (sessions st). split; [cbn; by rewrite with_sessions_id|].
    intros k. by rewrite bool_decide_eq_false_2 by apply not_elem_of_nil.
  - destruct (Hids id) as [s Hs]; [by left|].
    cbn [foldr]. rewrite run_bind, (updateSession_existing _ _ _ _ Hs).
    destruct (IH (with_sessions <[id := mark_ended now s]> st)) as (m & Hrun & Hm).
    { intros id' Hid'. cbn. destruct (decide (id = id')) as [<-|Hne].
      - rewrite lookup_insert_eq. by eexists.
      - rewrite lookup_insert_ne by done. apply Hids. by right. }
    rewrite Hrun. exists m. split; [reflexivity|].
    intros k. rewrite Hm. cbn [sessions with_sessions].
    destruct (decide (id = k)) as [<-|Hne].
    + rewrite lookup_insert_eq, Hs. rewrite (bool_decide_eq_true_2 (id ∈ id :: ids)) by left.
      by destruct (bool_decide (id ∈ ids)).
    + rewrite lookup_insert_ne by done.
      destruct (decide (k ∈ ids)) as [Hin|Hout].
      * rewrite !bool_decide_eq_true_2; [done | by right | done].
      * rewrite !bool_decide_eq_false_2; [done | | done].
        intros [?|?]%elem_of_cons; congruence.
Qed.

Lemma set_classReference_object additional ref st :
  (truthy additional = true → typeof additional = "object") →
  ∃ additional',
    set_classReference (or_else additional (VObj ∅)) ref st = (Returned additional', st).
Proof.
  intros Hobj. unfold or_else.
  destruct additional as [v|]; [|by eexists].
  destruct (truthy (Some v)) eqn:Htruthy; [|by eexists].
  specialize (Hobj eq_refl). destruct v; try discriminate; by eexists.
Qed.

Lemma active_snapshot classId st id s :
  (id, s) ∈ map_to_list
    (filter (λ '(_, s), Firestore.classId s = classId ∧ status s = "active") (sessions st))
  ↔ sessions st !! id = Some s ∧ Firestore.classId s = classId ∧ status s = "active".
Proof. by rewrite elem_of_map_to_list, map_lookup_filter_Some. Qed.


End Creation.



(** C8. Session creation validates its input: the location must have numeric
    coordinates and the radius must be positive.  [createAttendanceSession]
    misses the sign of the radius: a creation with radius -5 is accepted and
    the session is stored with that radius. *)
Theorem negative_radius_accepted :
  let st := store_of ∅ ∅ in
  let r := DataVisualizer.createAttendanceSession env10 "t1" (session_input (-5)) st in
  (∃ new, r.1 = Success new ∧ radius new = (-5)%float)
  ∧ radius <$> sessions r.2 !! "s2" = Some (-5)%float.
Proof. vm_compute. split; [|reflexivity]. eexists. split; reflexivity. Qed.

(** What the validation of [createAttendanceSession] does refuse: a
    location without numeric coordinates, and a radius that is missing,
    zero, NaN or not a number. *)
Lemma createAttendanceSession_validation `{Engine} env teacherId sessionData st :
  teacherId ≠ "" →
  truthy sessionData = true →
  truthy (prop_of sessionData "classId") = true →
  invalid_location (prop_of sessionData "location") = true
  ∨ truthy (prop_of sessionData "radius") = false
  ∨ typeof (prop_of sessionData "radius") ≠ "number" →
  ∃ error,
    error ∈ ["Valid location data is required"; "Valid radius is required"]
    ∧ DataVisualizer.createAttendanceSession env teacherId sessionData st
      = (Failure error, st).
Proof.
  intros Htid Hdata Hclass Hbad.
  unfold DataVisualizer.createAttendanceSession, DataVisualizer.createAttendanceSession_body.
  decide_false Htid. rewrite Hdata, Hclass. run.
  destruct (invalid_location (prop_of sessionData "location")) eqn:Hloc; run.
  { eexists. split; [|reflexivity]. by left. }
  destruct Hbad as [?|[Hradius|Hnumber]]; [done|..].
  - rewrite Hradius. run. eexists. split; [|reflexivity]. right. by left.
  - decide_false Hnumber. rewrite orb_true_r.
    eexists. split; [|reflexivity]. right. by left.
Qed.

(** ** Ending a session *)

Section Ending.
Context `{Engine} (env : Env).
Import DataVisualizer StudentHelpers.

(** What a successful [endAttendanceSession] tells: the caller owns the
    session, and the store changed only if the session was not ended yet. *)
Lemma endAttendanceSession_success sessionId teacherId st r st' :
  endAttendanceSession env sessionId teacherId st = (Success r, st') →
  sessionId ≠ "" ∧ teacherId ≠ ""
  ∧ ∃ s, sessions st !! sessionId = Some s ∧ Firestore.teacherId s = teacherId
         ∧ st' = (if bool_decide (status s = "ended") then st
                  else with_sessions <[sessionId := finish (serverNow env) s]> st).
Proof.
  unfold endAttendanceSession, endAttendanceSession_body.
  destruct (decide (sessionId = "")) as [Hsid|Hsid]; [decide_true Hsid; discriminate|].
  decide_false Hsid.
  destruct (decide (teacherId = "")) as [Htid|Htid]; [decide_true Htid; discriminate|].
  decide_false Htid.
  destruct (sessions st !! sessionId) as [s|] eqn:Hs; [|discriminate].
  destruct (decide (Firestore.teacherId s = teacherId)) as [Hown|Hown];
    [decide_true Hown | decide_false Hown; discriminate].
  intros Hrun. repeat split; [done..|]. exists s. repeat split; [done|].
  destruct (bool_decide (status s = "ended")); [congruence|].
  revert Hrun. unfold updateSession. run. rewrite Hs. congruence.
Qed.

Lemma ended_after_end sessionId teacherId st r st' :
  endAttendanceSession env sessionId teacherId st = (Success r, st') →
  sessionId ≠ "" ∧ teacherId ≠ ""
  ∧ ∃ s', sessions st' !! sessionId = Some s' ∧ status s' = "ended"
          ∧ Firestore.teacherId s' = teacherId.
Proof.
  intros (Hsid & Htid & s & Hs & Hown & ->)%endAttendanceSession_success.
  repeat split; [done..|].
  destruct (decide (status s = "ended")) as [Hst|Hst].
  - rewrite (bool_decide_eq_true_2 _ Hst). by exists s.
  - rewrite (bool_decide_eq_false_2 _ Hst). eexists. cbn. rewrite lookup_insert_eq.
    by repeat split.
Qed.

(** X1. Ending is idempotent: once [endAttendanceSession] has succeeded, the
    session is stored with status 'ended', and a further call (here through
    the alias [endSession]) succeeds with "Session is already ended" and
    leaves the store, hence the end time, as it is. *)
Theorem end_session_twice sessionId teacherId st r st' :
  endAttendanceSession env sessionId teacherId st = (Success r, st') →
  (∃ s', sessions st' !! sessionId = Some s' ∧ status s' = "ended")
  ∧ endSession env sessionId teacherId st'
    = (Success {[ "message" := VStr "Session is already ended" ]}, st').
Proof.
  intros (Hsid & Htid & s' & Hs' & Hst & Hown)%ended_after_end.
  split; [by exists s'|].
  unfold endSession, endAttendanceSession, endAttendanceSession_body.
  decide_false Hsid. decide_false Htid. given Hs'. decide_true Hown.
  by rewrite (bool_decide_eq_true_2 _ Hst).
Qed.

(** X2. Once a session has been ended, students are turned away: a check-in
    and a location validation with a well-formed location fail with
    "Session is ended, not active", a check-out fails with "Cannot check out
    from an inactive session", and none of them writes. *)
Theorem ended_session_refuses_students sessionId teacherId st r st' :
  endAttendanceSession env sessionId teacherId st = (Success r, st') →
  ∀ env' studentId locationData additionalData,
    studentId ≠ "" →
    (invalid_location locationData = false →
     checkInToSession env' sessionId studentId locationData additionalData st'
     = (Failure "Session is ended, not active", st'))
    ∧ (invalid_location locationData = false →
       validateLocationForSession sessionId locationData st'
       = (Failure "Session is ended, not active", st'))
    ∧ checkOutFromSession env' sessionId studentId additionalData st'
      = (Failure "Cannot check out from an inactive session", st').
Proof.
  intros (Hsid & Htid & s' & Hs' & Hst & Hown)%ended_after_end.
  intros env' studentId locationData additionalData Huid.
  assert (status s' ≠ "active") as Hinactive by (by rewrite Hst).
  repeat split.
  - intros Hloc. unfold checkInToSession, checkInToSession_body.
    decide_false Hsid. decide_false Huid. given Hloc. given Hs'.
    decide_false Hinactive. by rewrite Hst.
  - intros Hloc. unfold validateLocationForSession, validateLocationForSession_body.
    decide_false Hsid. given Hloc. given Hs'. decide_false Hinactive. by rewrite Hst.
  - unfold checkOutFromSession, checkOutFromSession_body.
    decide_false Hsid. decide_false Huid. given Hs'. by decide_false Hinactive.
Qed.

(** X3. Once a session has been ended, its teacher can neither start it
    again ("Cannot restart an ended session") nor move its geofence ("Cannot
    update location for an inactive session"); neither call writes. *)
Theorem ended_session_refuses_teacher sessionId teacherId st r st' :
  endAttendanceSession env sessionId teacherId st = (Success r, st') →
  ∀ env',
    startAttendanceSession env' sessionId teacherId st'
    = (Failure "Cannot restart an ended session", st')
    ∧ ∀ location radius additionalData,
        invalid_location location = false →
        typeof radius = "number" → PrimFloat.leb (num radius) 0 = false →
        updateSessionLocation env' sessionId teacherId location radius additionalData st'
        = (Failure "Cannot update location for an inactive session", st').
Proof.
  intros (Hsid & Htid & s' & Hs' & Hst & Hown)%ended_after_end.
  intros env'.
  assert (status s' ≠ "active") as Hinactive by (by rewrite Hst).
  split.
  - unfold startAttendanceSession, startAttendanceSession_body.
    decide_false Hsid. decide_false Htid. given Hs'. decide_true Hown.
    decide_false Hinactive. by decide_true Hst.
  - intros location radius additionalData Hloc Hnumber Hpositive.
    unfold updateSessionLocation, updateSessionLocation_body.
    decide_false Hsid. decide_false Htid. given Hloc. decide_true Hnumber.
    given Hpositive. given Hs'. decide_true Hown. by decide_false Hinactive.
Qed.

End Ending.

Lemma end_session_twice_witness :
  let st := store_of {[ "s1" := session_of "s1" "active" None ]} ∅ in
  let st' := (DataVisualizer.endAttendanceSession env10 "s1" "t1" st).2 in
  DataVisualizer.endSession env10 "s1" "t1" st'
  = (Success {[ "message" := VStr "Session is already ended" ]}, st').
Proof.
  intros st st'.
  exact (proj2 (end_session_twice env10 "s1" "t1" st _ st' eq_refl)).
Defined.

Lemma ended_session_refuses_students_witness :
  let st := store_of {[ "s1" := session_of "s1" "active" None ]} ∅ in
  let st' := (DataVisualizer.endAttendanceSession env10 "s1" "t1" st).2 in
  StudentHelpers.checkInToSession env10 "s1" "u1" (point 40 (-75)) ∅ st'
  = (Failure "Session is ended, not active", st').
Proof.
  intros st st'.
  exact (proj1 (ended_session_refuses_students env10 "s1" "t1" st _ st' eq_refl
                  env10 "u1" (point 40 (-75)) ∅ ltac:(done)) eq_refl).
Defined.

Lemma ended_session_refuses_teacher_witness :
  let st := store_of {[ "s1" := session_of "s1" "active" None ]} ∅ in
  let st' := (DataVisualizer.endAttendanceSession env10 "s1" "t1" st).2 in
  DataVisualizer.startAttendanceSession env10 "s1" "t1" st'
  = (Failure "Cannot restart an ended session", st').
Proof.
  intros st st'.
  exact (proj1 (ended_session_refuses_teacher env10 "s1" "t1" st _ st' eq_refl env10)).
Defined.

(** ** Ownership of sessions *)

Lemma only_sessions_of_refl teacherId st : only_sessions_of teacherId st st.
Proof. split; [apply with_sessions_id | by left]. Qed.

Lemma only_sessions_of_update teacherId st id s s' :
  sessions st !! id = Some s →
  Firestore.teacherId s = teacherId →
  Firestore.teacherId s' = teacherId → classId s' = classId s →
  sessionId s' = sessionId s → created_at s' = created_at s →
  only_sessions_of teacherId st (with_sessions <[id := s']> st).
Proof.
  intros Hs Hown Hown' Hclass Hid Hcreated. split; [by destruct st|].
  intros k. cbn. destruct (decide (id = k)) as [<-|Hne].
  - right. exists s, s'. by rewrite lookup_insert_eq.
  - left. by rewrite lookup_insert_ne.
Qed.

Section Ownership.
Context `{Engine} (env : Env).
Import DataVisualizer.

(** X4. Starting, ending and relocating respect ownership: whatever the
    arguments and whatever the outcome, the call leaves every collection but
    the sessions untouched, changes no session that the calling teacher does
    not own, and keeps the owner, class, id and creation time of the one it
    changes. *)
Theorem teacher_changes_own_sessions_only sessionId teacherId st :
  only_sessions_of teacherId st (startAttendanceSession env sessionId teacherId st).2
  ∧ only_sessions_of teacherId st (endAttendanceSession env sessionId teacherId st).2
  ∧ ∀ location radius additionalData,
      only_sessions_of teacherId st
        (updateSessionLocation env sessionId teacherId location radius additionalData st).2.
Proof.
  split; [|split].
  - unfold startAttendanceSession, startAttendanceSession_body. run.
    destruct (bool_decide (sessionId = "")); [apply only_sessions_of_refl|].
    destruct (bool_decide (teacherId = "")); [apply only_sessions_of_refl|].
    destruct (sessions st !! sessionId) as [s|] eqn:Hs; [|apply only_sessions_of_refl].
    destruct (decide (Firestore.teacherId s = teacherId)) as [Hown|Hown];
      [decide_true Hown | decide_false Hown; apply only_sessions_of_refl].
    destruct (bool_decide (status s = "active")); [apply only_sessions_of_refl|].
    destruct (bool_decide (status s = "ended")); [apply only_sessions_of_refl|].
    rewrite (updateSession_existing _ _ _ _ Hs).
    by apply (only_sessions_of_update _ _ _ s).
  - unfold endAttendanceSession, endAttendanceSession_body. run.
    destruct (bool_decide (sessionId = "")); [apply only_sessions_of_refl|].
    destruct (bool_decide (teacherId = "")); [apply only_sessions_of_refl|].
    destruct (sessions st !! sessionId) as [s|] eqn:Hs; [|apply only_sessions_of_refl].
    destruct (decide (Firestore.teacherId s = teacherId)) as [Hown|Hown];
      [decide_true Hown | decide_false Hown; apply only_sessions_of_refl].
    destruct (bool_decide (status s = "ended")); [apply only_sessions_of_refl|].
    rewrite (updateSession_existing _ _ _ _ Hs).
    by apply (only_sessions_of_update _ _ _ s).
  - intros location radius additionalData.
    unfold updateSessionLocation, updateSessionLocation_body. run.
    destruct (bool_decide (sessionId = "")); [apply only_sessions_of_refl|].
    destruct (bool_decide (teacherId = "")); [apply only_sessions_of_refl|].
    destruct (invalid_location location); [apply only_sessions_of_refl|].
    destruct (_ || _); [apply only_sessions_of_refl|].
    destruct (sessions st !! sessionId) as [s|] eqn:Hs; [|apply only_sessions_of_refl].
    destruct (decide (Firestore.teacherId s = teacherId)) as [Hown|Hown];
      [decide_true Hown | decide_false Hown; apply only_sessions_of_refl].
    destruct (bool_decide (status s = "active")); [|apply only_sessions_of_refl].
    run. unfold new_GeoPoint. run.
    destruct (_ && _); [|apply only_sessions_of_refl].
    destruct (_ && _); [|apply only_sessions_of_refl].
    run.
    rewrite (updateSession_existing _ _ _ _ Hs).
    by apply (only_sessions_of_update _ _ _ s).
Qed.

End Ownership.

(** ** Moving the geofence *)

Section Relocation.
Context `{Engine} (env : Env).
Import DataVisualizer StudentHelpers.

(** What a successful [updateSessionLocation] tells about its input and the
    store. *)
Lemma updateSessionLocation_success
    sessionId teacherId location radius additionalData st r st' :
  updateSessionLocation env sessionId teacherId location radius additionalData st
  = (Success r, st') →
  sessionId ≠ "" ∧ teacherId ≠ ""
  ∧ invalid_location location = false
  ∧ typeof radius = "number" ∧ PrimFloat.leb (num radius) 0 = false
  ∧ in_range (-90) (num (prop_of location "latitude")) 90 = true
  ∧ in_range (-180) (num (prop_of location "longitude")) 180 = true
  ∧ ∃ s, sessions st !! sessionId = Some s
         ∧ Firestore.teacherId s = teacherId ∧ status s = "active"
         ∧ st' = with_sessions
                   <[sessionId := relocate (serverNow env) (coordinates location) (num radius)
                                    (VObj (merge (spread (additional s)) additionalData)) s]> st.
Proof.
  unfold updateSessionLocation, updateSessionLocation_body.
  destruct (decide (sessionId = "")) as [Hsid|Hsid]; [decide_true Hsid; discriminate|].
  decide_false Hsid.
  destruct (decide (teacherId = "")) as [Htid|Htid]; [decide_true Htid; discriminate|].
  decide_false Htid.
  destruct (invalid_location location) eqn:Hloc; run; [discriminate|].
  destruct (decide (typeof radius = "number")) as [Hnumber|Hnumber];
    [decide_true Hnumber | decide_false Hnumber; discriminate].
  destruct (PrimFloat.leb (num radius) 0) eqn:Hpositive; run; [discriminate|].
  destruct (sessions st !! sessionId) as [s|] eqn:Hs; [|discriminate].
  destruct (decide (Firestore.teacherId s = teacherId)) as [Hown|Hown];
    [decide_true Hown | decide_false Hown; discriminate].
  destruct (decide (status s = "active")) as [Hactive|Hactive];
    [decide_true Hactive | decide_false Hactive; discriminate].
  unfold new_GeoPoint. run.
  destruct (invalid_location_numbers _ Hloc) as [Hlat Hlng].
  rewrite (bool_decide_eq_true_2 _ Hlat), (bool_decide_eq_true_2 _ Hlng). cbn [andb].
  destruct (in_range (-90) _ 90) eqn:Hlat_range; run; [|discriminate].
  destruct (in_range (-180) _ 180) eqn:Hlng_range; run; [|discriminate].
  rewrite (updateSession_existing _ _ _ _ Hs).
  intros Hrun. repeat split; [done..|]. exists s. repeat split; [done..|].
  injection Hrun as _ <-. do 3 f_equal.
  destruct (truthy (additional s)) eqn:Hadd; [done|].
  rewrite (spread_falsy _ Hadd). unfold merge. by rewrite (right_id_L ∅ (∪)).
Qed.

(** X5. A successful [updateSessionLocation] was made by the owner on an
    active session, and leaves it active with the given centre (a valid
    GeoPoint) and radius, a radius that is not [<= 0], the update time set,
    start and end time as they were, and the extension data merged: the
    given entries over the entries that were stored. *)
Theorem update_location_postcondition
    sessionId teacherId location radius additionalData st r st' :
  updateSessionLocation env sessionId teacherId location radius additionalData st
  = (Success r, st') →
  ∃ s s' extension,
    sessions st !! sessionId = Some s ∧ sessions st' !! sessionId = Some s'
    ∧ Firestore.teacherId s = teacherId ∧ status s = "active" ∧ status s' = "active"
    ∧ Firestore.location s' = coordinates location
    ∧ in_range (-90) (latitude (Firestore.location s')) 90 = true
    ∧ in_range (-180) (longitude (Firestore.location s')) 180 = true
    ∧ Firestore.radius s' = num radius
    ∧ PrimFloat.leb (Firestore.radius s') 0 = false
    ∧ lastUpdated s' = Some (serverNow env)
    ∧ startTime s' = startTime s ∧ endTime s' = endTime s
    ∧ additional s' = Some (VObj extension)
    ∧ ∀ k, extension !! k
           = match additionalData !! k with
             | Some v => Some v
             | None => spread (additional s) !! k
             end.
Proof.
  intros (_ & _ & _ & _ & Hpositive & Hlat & Hlng & s & Hs & Hown & Hactive & ->)
    %updateSessionLocation_success.
  eexists s, _, _. cbn [sessions with_sessions]. rewrite lookup_insert_eq.
  repeat split; try done.
  intros k. unfold merge.
  destruct (additionalData !! k) as [v|] eqn:Hk.
  - by apply lookup_union_Some_l.
  - by apply lookup_union_r.
Qed.

(** X6. After a successful [updateSessionLocation] the geofence is the new
    one: [validateLocationForSession] measures the distance from the new
    centre and compares it with the new radius. *)
Theorem update_location_moves_geofence
    sessionId teacherId location radius additionalData st r st' :
  updateSessionLocation env sessionId teacherId location radius additionalData st
  = (Success r, st') →
  ∀ studentLocation,
    invalid_location studentLocation = false →
    validateLocationForSession sessionId studentLocation st'
    = (Success
         {| isWithinRadius :=
              PrimFloat.leb
                (calculateDistance (coordinates location) (coordinates studentLocation))
                (num radius);
            distance :=
              calculateDistance (coordinates location) (coordinates studentLocation);
            sessionRadius := num radius;
            unit_ := "meters" |},
       st').
Proof.
  intros (Hsid & _ & _ & _ & _ & _ & _ & s & Hs & _ & Hactive & ->)
    %updateSessionLocation_success.
  intros studentLocation Hloc.
  unfold validateLocationForSession, validateLocationForSession_body.
  decide_false Hsid. given Hloc. cbn [sessions with_sessions].
  rewrite lookup_insert_eq. cbn [status relocate]. by decide_true Hactive.
Qed.

End Relocation.

Lemma update_location_postcondition_witness :
  let st := store_of {[ "s1" := session_of "s1" "active" None ]} ∅ in
  let st' := (DataVisualizer.updateSessionLocation env10 "s1" "t1"
                (point 41 (-74)) (Some (VNum 80)) {[ "room" := VStr "B12" ]} st).2 in
  ∃ s s' extension,
    sessions st !! "s1" = Some s ∧ sessions st' !! "s1" = Some s'
    ∧ Firestore.teacherId s = "t1" ∧ status s = "active" ∧ status s' = "active"
    ∧ Firestore.location s' = coordinates (point 41 (-74))
    ∧ in_range (-90) (latitude (Firestore.location s')) 90 = true
    ∧ in_range (-180) (longitude (Firestore.location s')) 180 = true
    ∧ Firestore.radius s' = 80%float
    ∧ PrimFloat.leb (Firestore.radius s') 0 = false
    ∧ lastUpdated s' = Some 1700000600000%Z
    ∧ startTime s' = startTime s ∧ endTime s' = endTime s
    ∧ additional s' = Some (VObj extension)
    ∧ ∀ k, extension !! k
           = match ({[ "room" := VStr "B12" ]} : object) !! k with
             | Some v => Some v
             | None => spread (additional s) !! k
             end.
Proof.
  intros st st'.
  exact (update_location_postcondition env10 "s1" "t1" (point 41 (-74)) (Some (VNum 80))
           {[ "room" := VStr "B12" ]} st _ st' eq_refl).
Defined.

Lemma update_location_moves_geofence_witness :
  let st := store_of {[ "s1" := session_of "s1" "active" None ]} ∅ in
  let st' := (DataVisualizer.updateSessionLocation env10 "s1" "t1"
                (point 41 (-74)) (Some (VNum 80)) ∅ st).2 in
  validateLocationForSession "s1" (point 41 (-74)) st'
  = (Success {| isWithinRadius := true; distance := 0; sessionRadius := 80;
                unit_ := "meters" |}, st').
Proof.
  intros st st'.
  exact (update_location_moves_geofence env10 "s1" "t1" (point 41 (-74)) (Some (VNum 80))
           ∅ st _ st' eq_refl (point 41 (-74)) eq_refl).
Defined.

(** ** The status of a session on the server *)

Section ServerStatus.
Context `{Engine} (env : Env).
Import DataVisualizer DataOperations.





End ServerStatus.



(** ** The two check-ins *)

Section TwoLayers.
Context `{Engine} (env : Env).
Import StudentHelpers DataOperations.


End TwoLayers.


(** ** Enrolment *)

Lemma doc_put_ne c parent key d parent' key' :
  (parent, key) ≠ (parent', key') →
  doc (put parent key d c) parent' key' = doc c parent' key'.
Proof.
  intros Hne. unfold doc, put, docs.
  destruct (decide (parent = parent')) as [<-|Hparent].
  - rewrite lookup_insert_eq. cbn. rewrite lookup_insert_ne; [done|congruence].
  - by rewrite lookup_insert_ne.
Qed.

Lemma doc_remove_ne c parent key parent' key' :
  (parent, key) ≠ (parent', key') →
  doc (remove parent key c) parent' key' = doc c parent' key'.
Proof.
  intros Hne. unfold doc, remove, docs.
  destruct (decide (parent = parent')) as [<-|Hparent].
  - rewrite lookup_insert_eq. cbn. rewrite lookup_delete_ne; [done|congruence].
  - by rewrite lookup_insert_ne.
Qed.

Lemma enrolment_paired_put st studentId classId d1 d2 :
  enrolment_paired st →
  enrolment_paired
    (with_userClasses (put studentId classId d1)
       (with_classStudents (put classId studentId d2) st)).
Proof.
  intros Hpaired uid cid. cbn [userClasses classStudents with_userClasses with_classStudents].
  destruct (decide ((studentId, classId) = (uid, cid))) as [[= <- <-]|Hne].
  - by rewrite !doc_put.
  - rewrite !doc_put_ne; [apply Hpaired | congruence | congruence].
Qed.

Lemma enrolment_paired_remove st studentId classId :
  enrolment_paired st →
  enrolment_paired
    (with_userClasses (remove studentId classId)
       (with_classStudents (remove classId studentId) st)).
Proof.
  intros Hpaired uid cid. cbn [userClasses classStudents with_userClasses with_classStudents].
  destruct (decide ((studentId, classId) = (uid, cid))) as [[= <- <-]|Hne].
  - rewrite !doc_remove. split; by intros [??].
  - rewrite !doc_remove_ne; [apply Hpaired | congruence | congruence].
Qed.

(** The document that [limit(1)] keeps is one of the documents found. *)
Lemma first_doc_elem_of {A} (docs : list (string * A)) d :
  Enrolment.first_doc docs = Some d → d ∈ docs.
Proof.
  unfold Enrolment.first_doc. revert d.
  induction docs as [|x docs IH]; intros d; [discriminate|].
  cbn [foldr]. destruct (foldr _ _ docs) as [b|].
  - case_match; intros [= <-]; [left | right; by apply IH].
  - intros [= <-]. left.
Qed.

Lemma activeSessions_nonempty classId st id s :
  sessions st !! id = Some s → Firestore.classId s = classId → status s = "active" →
  DataVisualizer.activeSessions classId st ≠ [].
Proof.
  intros Hs Hclass Hactive Hnil.
  assert ((id, s) ∈ DataVisualizer.activeSessions classId st) as Hin
    by (by apply active_snapshot).
  rewrite Hnil in Hin. by apply elem_of_nil in Hin.
Qed.

Section Joining.
Context `{Engine} (env : Env) (String_toUpperCase : string → string).
Import DataVisualizer Enrolment.

(** X11. The two pointers of an enrolment stay paired: if, for every student
    and class, the class is among the student's classes exactly when the
    student is among the class's students, then this still holds after
    [joinClassWithCode], after [leaveClass] and after
    [removeStudentFromClass], whatever their arguments and outcome. *)
Theorem enrolment_stays_paired st :
  enrolment_paired st →
  (∀ studentId joinCode additionalData,
     enrolment_paired
       (joinClassWithCode env String_toUpperCase studentId joinCode additionalData st).2)
  ∧ (∀ studentId classId, enrolment_paired (leaveClass studentId classId st).2)
  ∧ (∀ classId studentId teacherId,
       enrolment_paired (removeStudentFromClass classId studentId teacherId st).2).
Proof.
  intros Hpaired. split; [|split].
  - intros studentId joinCode additionalData.
    unfold joinClassWithCode, joinClassWithCode_body, doc_id, defined. run.
    destruct (bool_decide (studentId = "")); [done|].
    destruct (bool_decide (joinCode = "")); [done|].
    destruct (first_doc _) as [[classId classData]|]; [|done].
    destruct (bool_decide (is_Some _)); [done|].
    destruct (classData !! "teacherId") as [[]|]; try done.
    destruct (bool_decide (_ = "")); [done|]. run.
    destruct (classData !! "name"); [|done].
    destruct (users st !! _) as [teacherData|]; [destruct (teacherData !! "displayName")|];
      try done; by apply enrolment_paired_put.
  - intros studentId classId. unfold leaveClass, leaveClass_body. run.
    destruct (bool_decide (studentId = "")); [done|].
    destruct (bool_decide (classId = "")); [done|].
    destruct (bool_decide (is_Some _)); [|done].
    destruct (bool_decide (_ = [])); [|done].
    by apply enrolment_paired_remove.
  - intros classId studentId teacherId.
    unfold removeStudentFromClass, removeStudentFromClass_body. run.
    destruct (bool_decide (classId = "")); [done|].
    destruct (bool_decide (studentId = "")); [done|].
    destruct (bool_decide (teacherId = "")); [done|].
    destruct (classes st !! classId) as [classData|]; [|done].
    destruct (is_str _ _); [|done].
    destruct (bool_decide (_ = [])); [|done].
    destruct (bool_decide (is_Some _)); [|done].
    by apply enrolment_paired_remove.
Qed.

(** What a successful [joinClassWithCode] tells about its input and the
    store. *)
Lemma joinClassWithCode_success studentId joinCode additionalData st r st' :
  joinClassWithCode env String_toUpperCase studentId joinCode additionalData st
  = (Success r, st') →
  studentId ≠ "" ∧ joinCode ≠ ""
  ∧ ∃ classId classData className teacherName,
      first_doc (map_to_list
        (filter (λ '(_, c), is_str (c !! "joinCode") (String_toUpperCase joinCode))
                (classes st))) = Some (classId, classData)
      ∧ doc (userClasses st) studentId classId = None
      ∧ classData !! "name" = Some className
      ∧ r !! "data" = Some (VObj (list_to_map [
          ("classId", VStr classId);
          ("className", className);
          ("teacherName", teacherName);
          ("additional", VObj additionalData);
          ("message", VStr ("Successfully joined class: " +:+ toString (Some className)))]))
      ∧ st' = with_userClasses
                (put studentId classId (resolve (serverNow env) (list_to_map [
                   ("className", className);
                   ("teacherName", teacherName);
                   ("joinDate", VServerTimestamp);
                   ("additional", VObj additionalData)])))
                (with_classStudents
                   (put classId studentId (resolve (serverNow env) (list_to_map [
                      ("joinDate", VServerTimestamp);
                      ("additional", VObj additionalData)])))
                   st).
Proof.
  unfold joinClassWithCode, joinClassWithCode_body, doc_id, defined.
  destruct (decide (studentId = "")) as [Huid|Huid]; [decide_true Huid; discriminate|].
  decide_false Huid.
  destruct (decide (joinCode = "")) as [Hcode|Hcode]; [decide_true Hcode; discriminate|].
  decide_false Hcode.
  destruct (first_doc _) as [[classId classData]|]; [|discriminate].
  destruct (doc (userClasses st) studentId classId) as [d|] eqn:Hdoc.
  { rewrite bool_decide_eq_true_2 by (by eexists). discriminate. }
  rewrite bool_decide_eq_false_2 by (by intros [??]). run.
  destruct (classData !! "teacherId") as [[]|]; try discriminate.
  destruct (bool_decide (_ = "")); [discriminate|]. run.
  destruct (classData !! "name") as [className|] eqn:Hname; [|discriminate].
  destruct (users st !! _) as [teacherData|]; [destruct (teacherData !! "displayName")|];
    try discriminate; intros [= <- <-]; (split; [done|split; [done|]]);
    by eexists _, _, _, _.
Qed.

(** X12. A successful [joinClassWithCode] enrols the student in a class whose
    stored join code is the upper-cased code that was given and in which the
    student was not enrolled: it answers with the id of that class and
    stores both pointers, each with the server time as join date and the
    given extension data, the student's one with the name of the class (a
    name read from the store, which holds no [serverTimestamp()] sentinel);
    sessions, attendance records and classes are as before. *)
Theorem join_class_postcondition studentId joinCode additionalData st r st' :
  joinClassWithCode env String_toUpperCase studentId joinCode additionalData st
  = (Success r, st') →
  ∃ classId classData student class,
    classes st !! classId = Some classData
    ∧ classData !! "joinCode" = Some (VStr (String_toUpperCase joinCode))
    ∧ prop_of (r !! "data") "classId" = Some (VStr classId)
    ∧ doc (userClasses st) studentId classId = None
    ∧ doc (userClasses st') studentId classId = Some student
    ∧ doc (classStudents st') classId studentId = Some class
    ∧ (classData !! "name" ≠ Some VServerTimestamp →
       student !! "className" = classData !! "name")
    ∧ student !! "joinDate" = Some (VTimestamp (serverNow env))
    ∧ student !! "additional" = Some (VObj additionalData)
    ∧ class !! "joinDate" = Some (VTimestamp (serverNow env))
    ∧ class !! "additional" = Some (VObj additionalData)
    ∧ sessions st' = sessions st ∧ attendance st' = attendance st
    ∧ classes st' = classes st.
Proof.
  intros (_ & _ & classId & classData & className & teacherName
          & Hfirst & Hnew & Hname & Hdata & ->)%joinClassWithCode_success.
  apply first_doc_elem_of, elem_of_map_to_list, map_lookup_filter_Some in Hfirst
    as [Hclass Hcode].
  cbn in Hcode. unfold is_str in Hcode.
  destruct (classData !! "joinCode") as [[]|] eqn:HjoinCode; try done.
  apply bool_decide_unpack in Hcode as ->.
  eexists classId, classData, _, _.
  cbn [userClasses classStudents with_userClasses with_classStudents].
  rewrite !doc_put, Hdata, Hname.
  repeat split; try done.
  intros Hstored. by destruct className.
Qed.

(** X13. Joining twice enrols once: after a successful [joinClassWithCode],
    the same student joining with the same code is refused with "You are
    already enrolled in this class" and nothing is written. *)
Theorem join_twice studentId joinCode additionalData st r st' :
  joinClassWithCode env String_toUpperCase studentId joinCode additionalData st
  = (Success r, st') →
  ∀ env' additionalData',
    joinClassWithCode env' String_toUpperCase studentId joinCode additionalData' st'
    = (Failure "You are already enrolled in this class", st').
Proof.
  intros (Huid & Hcode & classId & classData & className & teacherName
          & Hfirst & _ & _ & _ & ->)%joinClassWithCode_success env' additionalData'.
  unfold joinClassWithCode, joinClassWithCode_body.
  decide_false Huid. decide_false Hcode.
  cbn [classes userClasses classStudents with_userClasses with_classStudents].
  rewrite Hfirst. run.
  cbn [classes userClasses classStudents with_userClasses with_classStudents].
  rewrite doc_put. by rewrite bool_decide_eq_true_2 by (by eexists).
Qed.

End Joining.

Section Leaving.
Context `{Engine} (env : Env).
Import DataVisualizer StudentHelpers DataOperations Enrolment.

Lemma leaveClass_success studentId classId st r st' :
  leaveClass studentId classId st = (Success r, st') →
  studentId ≠ "" ∧ classId ≠ ""
  ∧ is_Some (doc (userClasses st) studentId classId)
  ∧ activeSessions classId st = []
  ∧ st' = with_classStudents (remove classId studentId)
            (with_userClasses (remove studentId classId) st).
Proof.
  unfold leaveClass, leaveClass_body.
  destruct (decide (studentId = "")) as [Huid|Huid]; [decide_true Huid; discriminate|].
  decide_false Huid.
  destruct (decide (classId = "")) as [Hcid|Hcid]; [decide_true Hcid; discriminate|].
  decide_false Hcid.
  destruct (decide (is_Some (doc (userClasses st) studentId classId))) as [Hdoc|Hdoc];
    [decide_true Hdoc | decide_false Hdoc; discriminate].
  destruct (decide (activeSessions classId st = [])) as [Hnone|Hsome];
    [decide_true Hnone | decide_false Hsome; discriminate].
  by intros [= <- <-].
Qed.

(** X14. A successful [leaveClass] removes both pointers of the enrolment
    and nothing else: no session of the class was marked active, sessions
    and attendance records (those of the student included) are as before,
    and leaving again is refused with "You are not enrolled in this
    class". *)
Theorem leave_class_unenrols studentId classId st r st' :
  leaveClass studentId classId st = (Success r, st') →
  doc (userClasses st') studentId classId = None
  ∧ doc (classStudents st') classId studentId = None
  ∧ (∀ sessionId s, sessions st !! sessionId = Some s →
                    Firestore.classId s = classId → status s ≠ "active")
  ∧ sessions st' = sessions st
  ∧ attendance st' = attendance st
  ∧ leaveClass studentId classId st'
    = (Failure "You are not enrolled in this class", st').
Proof.
  intros (Huid & Hcid & _ & Hnone & ->)%leaveClass_success.
  cbn [userClasses classStudents with_userClasses with_classStudents sessions attendance].
  rewrite !doc_remove. repeat split.
  - intros sessionId s Hs Hclass Hactive.
    by apply (activeSessions_nonempty classId st sessionId s).
  - unfold leaveClass, leaveClass_body. decide_false Huid. decide_false Hcid.
    cbn [userClasses with_userClasses with_classStudents]. rewrite doc_remove.
    by rewrite bool_decide_eq_false_2 by (by intros [??]).
Qed.

Lemma removeStudentFromClass_success classId studentId teacherId st r st' :
  removeStudentFromClass classId studentId teacherId st = (Success r, st') →
  classId ≠ "" ∧ studentId ≠ "" ∧ teacherId ≠ ""
  ∧ (∃ classData, classes st !! classId = Some classData
                  ∧ classData !! "teacherId" = Some (VStr teacherId))
  ∧ activeSessions classId st = []
  ∧ is_Some (doc (classStudents st) classId studentId)
  ∧ st' = with_userClasses (remove studentId classId)
            (with_classStudents (remove classId studentId) st).
Proof.
  unfold removeStudentFromClass, removeStudentFromClass_body.
  destruct (decide (classId = "")) as [Hcid|Hcid]; [decide_true Hcid; discriminate|].
  decide_false Hcid.
  destruct (decide (studentId = "")) as [Huid|Huid]; [decide_true Huid; discriminate|].
  decide_false Huid.
  destruct (decide (teacherId = "")) as [Htid|Htid]; [decide_true Htid; discriminate|].
  decide_false Htid.
  destruct (classes st !! classId) as [classData|] eqn:Hclass; [|discriminate].
  destruct (is_str (classData !! "teacherId") teacherId) eqn:Hown; run; [|discriminate].
  destruct (decide (activeSessions classId st = [])) as [Hnone|Hsome];
    [decide_true Hnone | decide_false Hsome; discriminate].
  destruct (decide (is_Some (doc (classStudents st) classId studentId))) as [Hdoc|Hdoc];
    [decide_true Hdoc | decide_false Hdoc; discriminate].
  intros [= <- <-]. repeat split; [done..| |done|done].
  exists classData. split; [done|]. unfold is_str in Hown.
  destruct (classData !! "teacherId") as [[]|]; try done.
  by apply bool_decide_eq_true_1 in Hown as ->.
Qed.

(** X15. A successful [removeStudentFromClass] was asked by the teacher named
    in the class document; it removes both pointers of the enrolment and
    leaves sessions and attendance records as they were; afterwards a second
    removal is refused with "This student is not enrolled in the class" and
    the student's own [leaveClass] with "You are not enrolled in this
    class". *)
Theorem removed_student_is_unenrolled classId studentId teacherId st r st' :
  removeStudentFromClass classId studentId teacherId st = (Success r, st') →
  (∃ classData, classes st !! classId = Some classData
                ∧ classData !! "teacherId" = Some (VStr teacherId))
  ∧ doc (classStudents st') classId studentId = None
  ∧ doc (userClasses st') studentId classId = None
  ∧ sessions st' = sessions st
  ∧ attendance st' = attendance st
  ∧ removeStudentFromClass classId studentId teacherId st'
    = (Failure "This student is not enrolled in the class", st')
  ∧ leaveClass studentId classId st'
    = (Failure "You are not enrolled in this class", st').
Proof.
  intros (Hcid & Huid & Htid & (classData & Hclass & Hown) & Hnone & _ & ->)
    %removeStudentFromClass_success.
  cbn [userClasses classStudents with_userClasses with_classStudents sessions attendance].
  rewrite !doc_remove. repeat split; [by exists classData|..].
  - unfold removeStudentFromClass, removeStudentFromClass_body.
    decide_false Hcid. decide_false Huid. decide_false Htid.
    cbn [classes with_userClasses with_classStudents]. given Hclass.
    unfold is_str. rewrite Hown. rewrite bool_decide_eq_true_2 by done. run.
    change (activeSessions classId (with_userClasses _ (with_classStudents _ st)))
      with (activeSessions classId st).
    decide_true Hnone.
    cbn [classStudents with_userClasses with_classStudents]. rewrite doc_remove.
    by rewrite bool_decide_eq_false_2 by (by intros [??]).
  - unfold leaveClass, leaveClass_body. decide_false Huid. decide_false Hcid.
    cbn [userClasses with_userClasses with_classStudents]. rewrite doc_remove.
    by rewrite bool_decide_eq_false_2 by (by intros [??]).
Qed.

(** X16. While any session of a class is marked active (with or without an
    end time), an enrolled student cannot leave the class and its teacher
    cannot remove a student: both calls are refused with their message about
    active sessions and write nothing. *)
Theorem active_session_blocks_leaving classId st sessionId s :
  sessions st !! sessionId = Some s →
  Firestore.classId s = classId → status s = "active" →
  (∀ studentId,
     studentId ≠ "" → classId ≠ "" →
     is_Some (doc (userClasses st) studentId classId) →
     leaveClass studentId classId st
     = (Failure ("Cannot leave class with active sessions. " +:+
                 "Please check out from all active sessions first."), st))
  ∧ (∀ studentId teacherId classData,
       studentId ≠ "" → classId ≠ "" → teacherId ≠ "" →
       classes st !! classId = Some classData →
       classData !! "teacherId" = Some (VStr teacherId) →
       removeStudentFromClass classId studentId teacherId st
       = (Failure "Cannot remove student while there are active sessions for this class",
          st)).
Proof.
  intros Hs Hclass Hactive.
  pose proof (activeSessions_nonempty _ _ _ _ Hs Hclass Hactive) as Hsome.
  split.
  - intros studentId Huid Hcid Hdoc. unfold leaveClass, leaveClass_body.
    decide_false Huid. decide_false Hcid. decide_true Hdoc. by decide_false Hsome.
  - intros studentId teacherId classData Huid Hcid Htid HclassDoc Hown.
    unfold removeStudentFromClass, removeStudentFromClass_body.
    decide_false Hcid. decide_false Huid. decide_false Htid. given HclassDoc.
    unfold is_str. rewrite Hown. rewrite bool_decide_eq_true_2 by done. run.
    by decide_false Hsome.
Qed.


End Leaving.

Lemma enrolment_stays_paired_witness :
  let st' := (Enrolment.joinClassWithCode env10 upper "u1" "math42" ∅ campus).2 in
  is_Some (doc (userClasses st') "u1" "c1") ↔ is_Some (doc (classStudents st') "c1" "u1").
Proof.
  intros st'.
  refine (proj1 (enrolment_stays_paired env10 upper campus _) "u1" "math42" ∅ "u1" "c1").
  intros studentId classId. unfold doc, docs. cbn [userClasses classStudents campus].
  by rewrite !lookup_empty.
Defined.

Lemma join_class_postcondition_witness :
  let st' := (Enrolment.joinClassWithCode env10 upper "u1" "math42" ∅ campus).2 in
  ∃ student class,
    doc (userClasses st') "u1" "c1" = Some student
    ∧ doc (classStudents st') "c1" "u1" = Some class
    ∧ student !! "className" = Some (VStr "Algebra")
    ∧ class !! "joinDate" = Some (VTimestamp 1700000600000).
Proof.
  intros st'.
  destruct (join_class_postcondition env10 upper "u1" "math42" ∅ campus _ st' eq_refl)
    as (classId & classData & student & class & Hclass & _ & Hid & _ & Hstudent & Hclass'
        & Hname & _ & _ & Hdate & _).
  injection Hid as <-. injection Hclass as <-.
  exists student, class. repeat split; [done | done | by apply Hname | done].
Defined.

Lemma join_twice_witness :
  let st' := (Enrolment.joinClassWithCode env10 upper "u1" "math42" ∅ campus).2 in
  Enrolment.joinClassWithCode env10 upper "u1" "math42" ∅ st'
  = (Failure "You are already enrolled in this class", st').
Proof.
  intros st'.
  exact (join_twice env10 upper "u1" "math42" ∅ campus _ st' eq_refl env10 ∅).
Defined.

Lemma leave_class_unenrols_witness :
  let st := store_of ∅ ∅ in
  let st' := (Enrolment.leaveClass "u1" "c1" st).2 in
  doc (userClasses st') "u1" "c1" = None ∧ doc (classStudents st') "c1" "u1" = None.
Proof.
  intros st st'.
  destruct (leave_class_unenrols "u1" "c1" st _ st' eq_refl) as (? & ? & _).
  by split.
Defined.

Lemma removed_student_is_unenrolled_witness :
  let st := store_of ∅ ∅ in
  let st' := (DataVisualizer.removeStudentFromClass "c1" "u1" "t1" st).2 in
  Enrolment.leaveClass "u1" "c1" st'
  = (Failure "You are not enrolled in this class", st').
Proof.
  intros st st'.
  destruct (removed_student_is_unenrolled "c1" "u1" "t1" st _ st' eq_refl)
    as (_ & _ & _ & _ & _ & _ & Hleave).
  exact Hleave.
Defined.

Lemma active_session_blocks_leaving_witness :
  let st := store_of {[ "s0" := session_of "s0" "active" (Some 1700000300000%Z) ]} ∅ in
  Enrolment.leaveClass "u1" "c1" st
  = (Failure ("Cannot leave class with active sessions. " +:+
              "Please check out from all active sessions first."), st).
Proof.
  intros st.
  exact (proj1 (active_session_blocks_leaving "c1" st "s0"
                  (session_of "s0" "active" (Some 1700000300000%Z))
                  eq_refl eq_refl eq_refl)
           "u1" ltac:(done) ltac:(done) ltac:(by eexists)).
Defined.


(** ** The active sessions of a student *)

Lemma batches_from_concat fuel i (classIds : list string) :
  (length classIds - i ≤ fuel * Enrolment.batchSize)%nat →
  concat (Enrolment.batches_from fuel i classIds) = drop i classIds.
Proof.
  revert i. induction fuel as [|fuel IH]; intros i Hfuel; cbn [Enrolment.batches_from].
  - symmetry. apply drop_ge. lia.
  - destruct (Nat.ltb_spec i (length classIds)) as [Hlt|Hge].
    + cbn [concat]. rewrite IH by (unfold Enrolment.batchSize in *; lia).
      rewrite <- drop_drop. apply take_drop.
    + symmetry. apply drop_ge. lia.
Qed.

Lemma batches_from_sizes fuel i (classIds : list string) :
  Forall (λ batch, 0 < length batch ≤ Enrolment.batchSize)%nat
         (Enrolment.batches_from fuel i classIds).
Proof.
  revert i. induction fuel as [|fuel IH]; intros i; cbn [Enrolment.batches_from].
  - constructor.
  - destruct (Nat.ltb_spec i (length classIds)) as [Hlt|Hge]; constructor; [|apply IH].
    rewrite length_take, length_drop. unfold Enrolment.batchSize. lia.
Qed.

(** X18. The loop of [getActiveSessionsForStudent] that cuts the class ids
    into batches for the 'in' queries loses and repeats nothing: the batches
    in order make up the list of class ids, and each batch holds at least one
    and at most ten ids. *)
Theorem batches_cover_class_ids (classIds : list string) :
  let batches := Enrolment.batches_from (length classIds) 0 classIds in
  concat batches = classIds
  ∧ Forall (λ batch, 0 < length batch ≤ Enrolment.batchSize)%nat batches.
Proof.
  split; [|apply batches_from_sizes].
  rewrite batches_from_concat; [done|]. unfold Enrolment.batchSize. lia.
Qed.

Lemma elem_of_batches (classIds : list string) classId :
  (∃ batch, batch ∈ Enrolment.batches_from (length classIds) 0 classIds ∧ classId ∈ batch)
  ↔ classId ∈ classIds.
Proof.
  pose proof (batches_from_concat (length classIds) 0 classIds) as Hcover.
  cbn [drop] in Hcover.
  set (batches := Enrolment.batches_from (length classIds) 0 classIds) in *.
  assert (classId ∈ classIds ↔ In classId (concat batches)) as ->.
  { rewrite Hcover by (unfold Enrolment.batchSize; lia). apply list_elem_of_In. }
  rewrite in_concat.
  split; intros (batch & ? & ?); exists batch; by rewrite ?list_elem_of_In in *.
Qed.

Section ActiveSessions.
Context `{Engine}.
Import Enrolment.

(** X19. [getActiveSessionsForStudent] lists the active sessions of the
    student's classes, all of them and no others, without writing: every
    session that is marked active and whose class is among the student's
    classes has an entry; every entry is such a session, carries the class
    and teacher names of the student's enrolment document (the 'Unknown'
    defaults are never used) and reports the student's attendance: the
    status of their record, or 'absent' when there is none. *)
Theorem active_sessions_of_student studentId st :
  studentId ≠ "" →
  ∃ entries,
    getActiveSessionsForStudent studentId st = (Success entries, st)
    ∧ (∀ sessionId s,
         sessions st !! sessionId = Some s → status s = "active" →
         is_Some (doc (userClasses st) studentId (classId s)) →
         ∃ entry, entry ∈ entries ∧ sessionData entry = s)
    ∧ ∀ entry,
        entry ∈ entries →
        ∃ sessionId enrolment,
          sessions st !! sessionId = Some (sessionData entry)
          ∧ status (sessionData entry) = "active"
          ∧ doc (userClasses st) studentId (classId (sessionData entry)) = Some enrolment
          ∧ className entry = enrolment !! "className"
          ∧ teacherName entry = enrolment !! "teacherName"
          ∧ hasAttended entry
            = bool_decide (is_Some (doc (attendance st) sessionId studentId))
          ∧ attendanceStatus entry
            = match doc (attendance st) sessionId studentId with
              | Some record => record !! "status"
              | None => Some (VStr "absent")
              end.
Proof.
  intros Huid. unfold getActiveSessionsForStudent, getActiveSessionsForStudent_body.
  decide_false Huid.
  destruct (decide (docs (userClasses st) studentId = ∅)) as [Hempty|Hsome].
  { decide_true Hempty. exists []. split; [done|]. split.
    - intros sessionId s _ _ [d Hd]. unfold doc in Hd. rewrite Hempty in Hd.
      by rewrite lookup_empty in Hd.
    - by intros entry ?%elem_of_nil. }
  decide_false Hsome. eexists. split; [reflexivity|].
  set (classIds := (map_to_list (docs (userClasses st) studentId)).*1).
  assert (∀ classId, classId ∈ classIds ↔ is_Some (doc (userClasses st) studentId classId))
    as Hids.
  { intros classId. unfold classIds, doc. rewrite list_elem_of_fmap. split.
    - intros ([k d] & -> & Hin%elem_of_map_to_list). by exists d.
    - intros [d Hd]. exists (classId, d). by rewrite elem_of_map_to_list. }
  split.
  - intros sessionId s Hs Hactive Henrolled.
    apply Hids, elem_of_batches in Henrolled as (batch & Hbatch & Hin).
    exists (active_session_entry studentId (docs (userClasses st) studentId) st
              (sessionId, s)).
    split; [|reflexivity].
    apply list_elem_of_bind. exists batch. split; [|done].
    apply list_elem_of_fmap. exists (sessionId, s). split; [reflexivity|].
    by apply elem_of_map_to_list, map_lookup_filter_Some.
  - intros entry (batch & Hentry & Hbatch)%list_elem_of_bind.
    apply list_elem_of_fmap in Hentry as ([sessionId s] & -> & Hin).
    apply elem_of_map_to_list, map_lookup_filter_Some in Hin as [Hs [Hclass Hactive]].
    cbn in Hclass, Hactive.
    assert (is_Some (doc (userClasses st) studentId (classId s))) as [enrolment Hdoc].
    { apply Hids, elem_of_batches. by exists batch. }
    exists sessionId, enrolment. unfold active_session_entry. cbn.
    unfold doc in Hdoc. rewrite Hdoc. by repeat split.
Qed.

End ActiveSessions.

Lemma active_sessions_of_student_witness :
  let st := store_of {[ "s1" := session_of "s1" "active" None ]} ∅ in
  ∃ entries,
    Enrolment.getActiveSessionsForStudent "u1" st = (Success entries, st)
    ∧ ∃ entry, entry ∈ entries
               ∧ Enrolment.sessionData entry = session_of "s1" "active" None.
Proof.
  intros st.
  destruct (active_sessions_of_student "u1" st ltac:(done))
    as (entries & Hrun & Hcomplete & _).
  exists entries. split; [done|].
  apply (Hcomplete "s1"); [reflexivity | reflexivity | by eexists].
Defined.

(** ** The attendance report *)

Lemma is_str_inj v s s' : is_str v s = true → is_str v s' = true → s = s'.
Proof.
  unfold is_str. destruct v as [[]|]; try discriminate.
  intros <-%bool_decide_eq_true_1 <-%bool_decide_eq_true_1. reflexivity.
Qed.

Lemma count_status_cons s record records :
  DataVisualizer.count_status s (record :: records)
  = ((if is_str (record !! "status") s then 1 else 0)
     + DataVisualizer.count_status s records)%nat.
Proof.
  unfold DataVisualizer.count_status. rewrite filter_cons.
  by destruct (is_str (record !! "status") s).
Qed.

Lemma count_status_disjoint records :
  (DataVisualizer.count_status "verified" records
   + DataVisualizer.count_status "failed_location" records
   + DataVisualizer.count_status "checked_out_early_before_verification" records
   + DataVisualizer.count_status "absent" records
   ≤ length records)%nat.
Proof.
  induction records as [|record records IH]; [done|].
  rewrite !count_status_cons. cbn [length].
  destruct (is_str _ "verified") eqn:H1, (is_str _ "failed_location") eqn:H2,
    (is_str _ "checked_out_early_before_verification") eqn:H3,
    (is_str _ "absent") eqn:H4;
    try lia;
    repeat match goal with
           | Ha : is_str ?v ?a = true, Hb : is_str ?v ?b = true |- _ =>
               discriminate (is_str_inj _ _ _ Ha Hb)
           end.
Qed.

Lemma length_omap_le {A B} (f : A → option B) (l : list A) :
  (length (omap f l) ≤ length l)%nat.
Proof.
  induction l as [|x l IH]; [done|]. cbn. destruct (f x); cbn; lia.
Qed.

Section Report.
Context `{Engine}.
Import DataVisualizer.

(** X20. The figures of an attendance report add up: a successful
    [getSessionAttendance] writes nothing, is about an existing session that
    the given teacher (if one is given) owns, counts as enrolled the students
    of the session's class, lists at most one entry per enrolled student,
    reports as present the verified, failed and early check-outs together,
    and present and absent together never exceed the entries listed. *)
Theorem attendance_report_counts sessionId teacherId st report st' :
  getSessionAttendance sessionId teacherId st = (Success report, st') →
  st' = st
  ∧ presentCount report = (verified report + failed report + earlyCheckout report)%nat
  ∧ (presentCount report + absent report ≤ length (records report))%nat
  ∧ (length (records report) ≤ enrolledStudentCount report)%nat
  ∧ enrolledStudentCount report
    = size (docs (classStudents st) (report_classId report))
  ∧ ∃ s, sessions st !! sessionId = Some s
         ∧ report_classId report = classId s ∧ report_status report = status s
         ∧ (teacherId = "" ∨ Firestore.teacherId s = teacherId).
Proof.
  unfold getSessionAttendance, getSessionAttendance_body.
  destruct (bool_decide (sessionId = "")); run; [discriminate|].
  destruct (sessions st !! sessionId) as [s|] eqn:Hs; [|discriminate].
  destruct (decide (teacherId = "")) as [Hany|Hteacher].
  - decide_true Hany. intros [= <- <-]. cbn.
    repeat split.
    + apply count_status_disjoint.
    + apply length_omap_le.
    + by rewrite length_fmap, length_map_to_list.
    + exists s. repeat split. by left.
  - decide_false Hteacher.
    destruct (decide (Firestore.teacherId s = teacherId)) as [Hown|Hown];
      [decide_true Hown | decide_false Hown; discriminate].
    intros [= <- <-]. cbn.
    repeat split.
    + apply count_status_disjoint.
    + apply length_omap_le.
    + by rewrite length_fmap, length_map_to_list.
    + exists s. repeat split. by right.
Qed.

End Report.

Lemma attendance_report_counts_witness :
  let st := store_of {[ "s1" := session_of "s1" "active" None ]}
                     {[ "s1" := {[ "u1" := verified_record ]} ]} in
  ∃ report,
    (DataVisualizer.getSessionAttendance "s1" "t1" st).1 = Success report
    ∧ (DataVisualizer.presentCount report + DataVisualizer.absent report
       ≤ length (DataVisualizer.records report))%nat.
Proof.
  intros st. eexists. split; [reflexivity|].
  exact (proj1 (proj2 (proj2 (attendance_report_counts "s1" "t1" st _ _ eq_refl)))).
Defined.

(** ** Creating a session again *)

Section Recreation.
Context `{Engine}.
Import DataVisualizer.

Lemma set_classReference_returned additional ref st a st' :
  set_classReference (or_else additional (VObj ∅)) ref st = (Returned a, st') →
  truthy additional = true → typeof additional = "object".
Proof.
  unfold or_else. destruct additional as [v|]; [|discriminate 2].
  intros Hset Htruthy. rewrite Htruthy in Hset.
  destruct v; try reflexivity; discriminate Hset.
Qed.

(** The two outcomes of a creation that passes validation and the permission
    check. *)
Lemma createAttendanceSession_checked env teacherId sessionData st classId classData :
  teacherId ≠ "" →
  prop_of sessionData "classId" = Some (VStr classId) → classId ≠ "" →
  invalid_location (prop_of sessionData "location") = false →
  truthy (prop_of sessionData "radius") = true →
  typeof (prop_of sessionData "radius") = "number" →
  classes st !! classId = Some classData →
  isTeacherAuthorized teacherId classData = true →
  (truly_active classId st →
   createAttendanceSession env teacherId sessionData st
   = (Failure "There is already an active session for this class", st))
  ∧ (¬ truly_active classId st →
     (truthy (prop_of sessionData "additional") = true →
      typeof (prop_of sessionData "additional") = "object") →
     in_range (-90) (num (prop_of (prop_of sessionData "location") "latitude")) 90 = true →
     in_range (-180) (num (prop_of (prop_of sessionData "location") "longitude")) 180 = true →
     ∃ new,
       createAttendanceSession env teacherId sessionData st
       = (Success new,
          with_sessions (λ m, <[autoId env := new]> (reconcile classId (serverNow env) <$> m)) st)
       ∧ status new = "active" ∧ endTime new = None
       ∧ Firestore.classId new = classId ∧ Firestore.teacherId new = teacherId).
Proof.
  intros Htid Hclass Hc Hloc Hradius Hnumber HclassDoc Hauth.
  assert (truthy sessionData = true) as Hdata.
  { destruct sessionData as [[]|]; try discriminate Hclass; reflexivity. }
  unfold createAttendanceSession, createAttendanceSession_body, doc_id.
  decide_false Htid. rewrite Hdata, Hclass.
  assert (truthy (Some (VStr classId)) = true) as ->.
  { cbn. by rewrite bool_decide_eq_false_2. }
  run. given Hloc. rewrite Hradius. decide_true Hnumber. decide_false Hc.
  given HclassDoc. given Hauth.
  destruct (scan_active _) as [hasActiveSession sessionsToFix] eqn:Hscan.
  apply scan_active_spec in Hscan as [Hactive Hfix].
  assert (hasActiveSession = true ↔ truly_active classId st) as Hiff.
  { rewrite Hactive. split.
    - intros (id & s & (Hs & Hcid & Hst)%active_snapshot & Hend). by exists id, s.
    - intros (id & s & Hs & Hcid & Hst & Hend). exists id, s. by rewrite active_snapshot. }
  destruct hasActiveSession.
  { split; [reflexivity|]. intros []. by apply Hiff. }
  assert (¬ truly_active classId st) as Hnone by (by intros ?%Hiff).
  split; [done|]. intros _ Hadd Hlat Hlng.
  destruct (for_each_mark_ended (serverNow env) sessionsToFix st) as (m & Hrun & Hm).
  { intros id (s & (Hs & _)%active_snapshot & _)%Hfix. by eexists. }
  rewrite Hrun.
  assert (m = reconcile classId (serverNow env) <$> sessions st) as ->.
  { apply map_eq. intros k. rewrite Hm, lookup_fmap. unfold reconcile.
    destruct (sessions st !! k) as [s|] eqn:Hs; [|by destruct (bool_decide _)].
    cbn [fmap option_fmap option_map].
    destruct (decide (Firestore.classId s = classId ∧ status s = "active")) as [Hmarked|Hnot].
    - rewrite (bool_decide_eq_true_2 _ Hmarked). rewrite bool_decide_eq_true_2; [done|].
      apply Hfix. exists s. split; [by apply active_snapshot|].
      intros Hend. apply Hnone. exists k, s. tauto.
    - rewrite (bool_decide_eq_false_2 _ Hnot). rewrite bool_decide_eq_false_2; [done|].
      intros (s' & (Hs' & ?)%active_snapshot & _)%Hfix.
      rewrite Hs in Hs'. injection Hs' as <-. tauto. }
  destruct (set_classReference_object (prop_of sessionData "additional")
              (VObj (list_to_map [
                 ("id", VStr classId);
                 ("teacherId", or_else (classData !! "teacherId") VNull);
                 ("teacherUid", or_else (classData !! "teacherUid") VNull);
                 ("name", or_else (classData !! "name") (VStr "Unknown Class"))]))
              (with_sessions (λ _, reconcile classId (serverNow env) <$> sessions st) st)
              Hadd) as [additional' Hset].
  rewrite Hset.
  rewrite (new_GeoPoint_in_range _ _ Hloc Hlat Hlng).
  eexists. split; [reflexivity|]. repeat split; reflexivity.
Qed.

(** What a successful creation tells about its input and the store. *)
Lemma createAttendanceSession_success env teacherId sessionData st new st' :
  createAttendanceSession env teacherId sessionData st = (Success new, st') →
  ∃ classId classData,
    teacherId ≠ ""
    ∧ prop_of sessionData "classId" = Some (VStr classId) ∧ classId ≠ ""
    ∧ invalid_location (prop_of sessionData "location") = false
    ∧ truthy (prop_of sessionData "radius") = true
    ∧ typeof (prop_of sessionData "radius") = "number"
    ∧ classes st !! classId = Some classData
    ∧ isTeacherAuthorized teacherId classData = true
    ∧ ¬ truly_active classId st
    ∧ (truthy (prop_of sessionData "additional") = true →
       typeof (prop_of sessionData "additional") = "object")
    ∧ in_range (-90) (num (prop_of (prop_of sessionData "location") "latitude")) 90 = true
    ∧ in_range (-180) (num (prop_of (prop_of sessionData "location") "longitude")) 180 = true.
Proof.
  unfold createAttendanceSession, createAttendanceSession_body, doc_id.
  destruct (decide (teacherId = "")) as [Htid|Htid]; [decide_true Htid; discriminate|].
  decide_false Htid.
  destruct (truthy sessionData); run; [|discriminate].
  destruct (truthy (prop_of sessionData "classId")); run; [|discriminate].
  destruct (invalid_location _) eqn:Hloc; run; [discriminate|].
  destruct (truthy (prop_of sessionData "radius")) eqn:Hradius; run; [|discriminate].
  destruct (decide (typeof (prop_of sessionData "radius") = "number")) as [Hnumber|Hnumber];
    [decide_true Hnumber | decide_false Hnumber; discriminate].
  destruct (prop_of sessionData "classId") as [[| | |classId| | | |]|]; try discriminate.
  destruct (decide (classId = "")) as [Hc|Hc]; [decide_true Hc; discriminate|].
  decide_false Hc.
  destruct (classes st !! classId) as [classData|] eqn:HclassDoc; [|discriminate].
  destruct (isTeacherAuthorized teacherId classData) eqn:Hauth; run; [|discriminate].
  destruct (scan_active _) as [hasActiveSession sessionsToFix] eqn:Hscan.
  apply scan_active_spec in Hscan as [Hactive Hfix].
  destruct hasActiveSession; run; [discriminate|].
  assert (¬ truly_active classId st) as Hnone.
  { intros (id & s & Hs & Hcid & Hst & Hend).
    enough (false = true) by done. apply Hactive. exists id, s. by rewrite active_snapshot. }
  destruct (for_each_mark_ended (serverNow env) sessionsToFix st) as (m & Hrun & Hm).
  { intros id (s & (Hs & _)%active_snapshot & _)%Hfix. by eexists. }
  rewrite Hrun.
  destruct (set_classReference _ _ _) as [[additional'|?] st1] eqn:Hset; [|discriminate].
  pose proof (set_classReference_returned _ _ _ _ _ Hset) as Hadd.
  unfold new_GeoPoint. run.
  destruct (invalid_location_numbers _ Hloc) as [Hlat Hlng].
  rewrite (bool_decide_eq_true_2 _ Hlat), (bool_decide_eq_true_2 _ Hlng). cbn [andb].
  destruct (in_range (-90) _ 90) eqn:Hlat_range; run; [|discriminate].
  destruct (in_range (-180) _ 180) eqn:Hlng_range; run; [|discriminate].
  intros _. by exists classId, classData.
Qed.

(** X21. Submitting a creation twice creates one session: after a successful
    [createAttendanceSession], the same request is refused with "There is
    already an active session for this class" and writes nothing. *)
Theorem second_creation_conflicts env teacherId sessionData st new st' :
  createAttendanceSession env teacherId sessionData st = (Success new, st') →
  ∀ env',
    createAttendanceSession env' teacherId sessionData st'
    = (Failure "There is already an active session for this class", st').
Proof.
  intros Hcreated env'.
  destruct (createAttendanceSession_success _ _ _ _ _ _ Hcreated)
    as (classId & classData & Htid & Hclass & Hc & Hloc & Hradius & Hnumber & HclassDoc
        & Hauth & Hnone & Hadd & Hlat & Hlng).
  destruct (proj2 (createAttendanceSession_checked env _ _ _ _ _
                     Htid Hclass Hc Hloc Hradius Hnumber HclassDoc Hauth)
              Hnone Hadd Hlat Hlng)
    as (new' & Hrun & Hstatus & Hend & Hcid & _).
  rewrite Hrun in Hcreated. injection Hcreated as -> <-.
  match goal with |- context [createAttendanceSession _ _ _ ?st] => set (st' := st) end.
  apply (proj1 (createAttendanceSession_checked env' teacherId sessionData st'
                  classId classData
                  Htid Hclass Hc Hloc Hradius Hnumber HclassDoc Hauth)).
  exists (autoId env), new. cbn. by rewrite lookup_insert_eq.
Qed.

(** X22. Ending the session frees the class: after a successful
    [createAttendanceSession] and a successful [endAttendanceSession] of the
    session it created, the same creation request succeeds again and stores a
    new active session of the same class without end time. *)
Theorem creation_possible_again_after_end
    env teacherId sessionData st new st1 env1 r st2 :
  createAttendanceSession env teacherId sessionData st = (Success new, st1) →
  endAttendanceSession env1 (autoId env) teacherId st1 = (Success r, st2) →
  ∀ env2,
    ∃ new2 st3,
      createAttendanceSession env2 teacherId sessionData st2 = (Success new2, st3)
      ∧ sessions st3 !! autoId env2 = Some new2
      ∧ status new2 = "active" ∧ endTime new2 = None
      ∧ Firestore.classId new2 = Firestore.classId new.
Proof.
  intros Hcreated Hended env2.
  destruct (createAttendanceSession_success _ _ _ _ _ _ Hcreated)
    as (classId & classData & Htid & Hclass & Hc & Hloc & Hradius & Hnumber & HclassDoc
        & Hauth & Hnone & Hadd & Hlat & Hlng).
  destruct (proj2 (createAttendanceSession_checked env _ _ _ _ _
                     Htid Hclass Hc Hloc Hradius Hnumber HclassDoc Hauth)
              Hnone Hadd Hlat Hlng)
    as (new' & Hrun & Hstatus & Hend & Hcid & Hown).
  rewrite Hrun in Hcreated. injection Hcreated as -> <-.
  apply (endAttendanceSession_success env1) in Hended
    as (_ & _ & s & Hs & _ & ->).
  cbn [sessions with_sessions] in Hs. rewrite lookup_insert_eq in Hs. injection Hs as <-.
  rewrite Hstatus. rewrite bool_decide_eq_false_2 by done.
  match goal with |- context [createAttendanceSession _ _ _ ?st] => set (st2 := st) end.
  destruct (proj2 (createAttendanceSession_checked env2 teacherId sessionData st2
                     classId classData
                     Htid Hclass Hc Hloc Hradius Hnumber HclassDoc Hauth))
    as (new2 & Hrun2 & Hstatus2 & Hend2 & Hcid2 & _); [|done..|].
  { intros (id & s & Hs & Hsc & Hst & _). unfold st2 in Hs. cbn in Hs.
    destruct (decide (autoId env = id)) as [<-|Hne].
    - rewrite lookup_insert_eq in Hs. injection Hs as <-. discriminate Hst.
    - rewrite !lookup_insert_ne in Hs by done. rewrite lookup_fmap in Hs.
      destruct (sessions st !! id) as [s0|]; [|discriminate].
      injection Hs as <-. unfold reconcile in *.
      destruct (decide (Firestore.classId s0 = classId ∧ status s0 = "active"))
        as [Hmarked|Hnot].
      + rewrite (bool_decide_eq_true_2 _ Hmarked) in Hst. discriminate Hst.
      + rewrite (bool_decide_eq_false_2 _ Hnot) in Hsc, Hst. tauto. }
  eexists new2, _. split; [exact Hrun2|]. cbn. rewrite lookup_insert_eq.
  repeat split; congruence.
Qed.

End Recreation.

Lemma second_creation_conflicts_witness :
  let st := store_of ∅ ∅ in
  let st' := (DataVisualizer.createAttendanceSession env10 "t1" (session_input 50) st).2 in
  DataVisualizer.createAttendanceSession env10 "t1" (session_input 50) st'
  = (Failure "There is already an active session for this class", st').
Proof.
  intros st st'.
  exact (second_creation_conflicts env10 "t1" (session_input 50) st _ st' eq_refl env10).
Defined.

Lemma creation_possible_again_after_end_witness :
  let st := store_of ∅ ∅ in
  let st1 := (DataVisualizer.createAttendanceSession env10 "t1" (session_input 50) st).2 in
  let st2 := (DataVisualizer.endAttendanceSession env10 "s2" "t1" st1).2 in
  ∃ new2 st3,
    DataVisualizer.createAttendanceSession env10 "t1" (session_input 50) st2
    = (Success new2, st3)
    ∧ sessions st3 !! "s2" = Some new2
    ∧ status new2 = "active" ∧ endTime new2 = None.
Proof.
  intros st st1 st2.
  destruct (creation_possible_again_after_end env10 "t1" (session_input 50) st _ st1
              env10 _ st2 eq_refl eq_refl env10)
    as (new2 & st3 & ? & ? & ? & ? & _).
  by exists new2, st3.
Defined.

(** ** Marking a student absent *)

Lemma checkInToSession_fresh `{Engine} env
    sessionId studentId locationData additionalData st s :
  sessionId ≠ "" → studentId ≠ "" →
  invalid_location locationData = false →
  in_range (-90) (num (prop_of locationData "latitude")) 90 = true →
  in_range (-180) (num (prop_of locationData "longitude")) 180 = true →
  sessions st !! sessionId = Some s →
  status s = "active" →
  is_Some (doc (userClasses st) studentId (classId s)) →
  doc (attendance st) sessionId studentId = None →
  ∃ payload rec,
    StudentHelpers.checkInToSession env sessionId studentId locationData additionalData st
    = (Success payload, with_attendance (put sessionId studentId rec) st)
    ∧ rec !! "status"
      = Some (VStr (if passes_geofence s locationData then "verified" else "failed_location")).
Proof.
  intros Hsid Huid Hloc Hlat Hlng Hs Hactive Henrolled Hrec.
  unfold StudentHelpers.checkInToSession, StudentHelpers.checkInToSession_body.
  decide_false Hsid. decide_false Huid. given Hloc. given Hs.
  decide_true Hactive. decide_true Henrolled. given Hrec.
  rewrite bool_decide_eq_false_2 by (by intros [??]). run.
  unfold validateLocationForSession, validateLocationForSession_body.
  decide_false Hsid. given Hloc. given Hs. decide_true Hactive.
  cbv beta iota zeta delta [isWithinRadius distance].
  given (new_GeoPoint_in_range _ st Hloc Hlat Hlng).
  unfold setAttendance. run.
  eexists _, _. split; [reflexivity|].
  unfold passes_geofence. rewrite Hloc. by destruct s as [? ? ? ? ? ? []].
Qed.

Section Absence.
Context `{Engine} (env : Env).
Import DataVisualizer StudentHelpers.

(** X23. Marking a student absent reopens the check-in: after a successful
    [manuallyMarkAttendance] with status 'absent' the student has no record
    for the session, so that, the session being active and the student
    enrolled, a check-in with a valid location succeeds again and stores a
    record whose status is decided by the geofence. *)
Theorem absent_mark_reopens_check_in
    sessionId studentId teacherId additionalData st r st' :
  manuallyMarkAttendance env sessionId studentId "absent" teacherId additionalData st
  = (Success r, st') →
  doc (attendance st') sessionId studentId = None
  ∧ ∀ env' s locationData additionalData',
      sessions st !! sessionId = Some s → status s = "active" →
      is_Some (doc (userClasses st) studentId (classId s)) →
      invalid_location locationData = false →
      in_range (-90) (num (prop_of locationData "latitude")) 90 = true →
      in_range (-180) (num (prop_of locationData "longitude")) 180 = true →
      ∃ payload rec,
        checkInToSession env' sessionId studentId locationData additionalData' st'
        = (Success payload, with_attendance (put sessionId studentId rec) st')
        ∧ rec !! "status"
          = Some (VStr (if passes_geofence s locationData
                        then "verified" else "failed_location")).
Proof.
  unfold manuallyMarkAttendance, manuallyMarkAttendance_body.
  destruct (decide (sessionId = "")) as [Hsid|Hsid]; [decide_true Hsid; discriminate|].
  decide_false Hsid.
  destruct (decide (studentId = "")) as [Huid|Huid]; [decide_true Huid; discriminate|].
  decide_false Huid.
  rewrite (bool_decide_eq_false_2 ("absent" = "")) by done. run.
  destruct (bool_decide (teacherId = "")); run; [discriminate|].
  rewrite (bool_decide_eq_true_2 ("absent" ∈ validStatuses)) by (repeat constructor). run.
  destruct (sessions st !! sessionId) as [s0|] eqn:Hs0; [|discriminate].
  destruct (bool_decide (Firestore.teacherId s0 = teacherId)); run; [|discriminate].
  destruct (bool_decide (is_Some _)); run; [|discriminate].
  rewrite (bool_decide_eq_true_2 ("absent" = "absent")) by done.
  intros Hmarked.
  assert (doc (attendance st') sessionId studentId = None
          ∧ sessions st' = sessions st ∧ userClasses st' = userClasses st)
    as (Hnone & Hsessions & Hclasses).
  { destruct (doc (attendance st) sessionId studentId) eqn:Hrec;
      revert Hmarked; unfold deleteAttendance; run; intros [= <- <-];
      cbn [attendance with_attendance]; by rewrite ?doc_remove. }
  split; [done|].
  intros env' s locationData additionalData' Hs Hactive Henrolled Hloc Hlat Hlng.
  injection Hs as <-. rewrite <- Hsessions in Hs0. rewrite <- Hclasses in Henrolled.
  by apply (checkInToSession_fresh env' _ _ _ _ _ s0).
Qed.

End Absence.

Lemma absent_mark_reopens_check_in_witness :
  let st := store_of {[ "s1" := session_of "s1" "active" None ]}
                     {[ "s1" := {[ "u1" := failed_record ]} ]} in
  let st' := (DataVisualizer.manuallyMarkAttendance env10 "s1" "u1" "absent" "t1" ∅ st).2 in
  doc (attendance st') "s1" "u1" = None.
Proof.
  intros st st'.
  exact (proj1 (absent_mark_reopens_check_in env10 "s1" "u1" "t1" ∅ st _ st' eq_refl)).
Defined.

(** ** Refusals *)

Section Refusals.
Context `{Engine} (env : Env).
Import DataVisualizer Enrolment.

(** X24. A refusal writes nothing: whenever [endAttendanceSession],
    [updateSessionLocation], [removeStudentFromClass], [joinClassWithCode] or
    [leaveClass] answers with an error, the store is as it was before the
    call. *)
Theorem refused_calls_write_nothing st :
  (∀ sessionId teacherId error st',
     endAttendanceSession env sessionId teacherId st = (Failure error, st') → st' = st)
  ∧ (∀ sessionId teacherId location radius additionalData error st',
       updateSessionLocation env sessionId teacherId location radius additionalData st
       = (Failure error, st') → st' = st)
  ∧ (∀ classId studentId teacherId error st',
       removeStudentFromClass classId studentId teacherId st = (Failure error, st') →
       st' = st)
  ∧ (∀ toUpperCase studentId joinCode additionalData error st',
       joinClassWithCode env toUpperCase studentId joinCode additionalData st
       = (Failure error, st') → st' = st)
  ∧ (∀ studentId classId error st',
       leaveClass studentId classId st = (Failure error, st') → st' = st).
Proof.
  repeat split.
  - intros sessionId teacherId error st'.
    unfold endAttendanceSession, endAttendanceSession_body. run.
    destruct (bool_decide (sessionId = "")); [congruence|].
    destruct (bool_decide (teacherId = "")); [congruence|].
    destruct (sessions st !! sessionId) as [s|] eqn:Hs; [|congruence].
    destruct (bool_decide (Firestore.teacherId s = teacherId)); run; [|congruence].
    destruct (bool_decide (status s = "ended")); [discriminate|].
    rewrite (updateSession_existing _ _ _ _ Hs). discriminate.
  - intros sessionId teacherId location radius additionalData error st'.
    unfold updateSessionLocation, updateSessionLocation_body, new_GeoPoint. run.
    destruct (bool_decide (sessionId = "")); [congruence|].
    destruct (bool_decide (teacherId = "")); [congruence|].
    destruct (invalid_location location); [congruence|].
    destruct (_ || _); [congruence|].
    destruct (sessions st !! sessionId) as [s|] eqn:Hs; [|congruence].
    destruct (bool_decide (Firestore.teacherId s = teacherId)); run; [|congruence].
    destruct (bool_decide (status s = "active")); run; [|congruence].
    destruct (_ && _); [|congruence].
    destruct (_ && _); [|congruence]. run.
    rewrite (updateSession_existing _ _ _ _ Hs). discriminate.
  - intros classId studentId teacherId error st'.
    unfold removeStudentFromClass, removeStudentFromClass_body. run.
    destruct (bool_decide (classId = "")); [congruence|].
    destruct (bool_decide (studentId = "")); [congruence|].
    destruct (bool_decide (teacherId = "")); [congruence|].
    destruct (classes st !! classId) as [classData|]; [|congruence].
    destruct (is_str _ _); [|congruence].
    destruct (bool_decide (_ = [])); [|congruence].
    destruct (bool_decide (is_Some _)); [discriminate|congruence].
  - intros toUpperCase studentId joinCode additionalData error st'.
    unfold joinClassWithCode, joinClassWithCode_body, doc_id, defined. run.
    destruct (bool_decide (studentId = "")); [congruence|].
    destruct (bool_decide (joinCode = "")); [congruence|].
    destruct (first_doc _) as [[classId classData]|]; [|congruence].
    destruct (bool_decide (is_Some _)); [congruence|].
    destruct (classData !! "teacherId") as [[]|]; try congruence.
    destruct (bool_decide (_ = "")); [congruence|]. run.
    destruct (classData !! "name"); [|congruence].
    destruct (users st !! _) as [teacherData|]; [destruct (teacherData !! "displayName")|];
      congruence.
  - intros studentId classId error st'. unfold leaveClass, leaveClass_body. run.
    destruct (bool_decide (studentId = "")); [congruence|].
    destruct (bool_decide (classId = "")); [congruence|].
    destruct (bool_decide (is_Some _)); [|congruence].
    destruct (bool_decide (_ = [])); [discriminate|congruence].
Qed.

End Refusals.

Lemma refused_calls_write_nothing_witness :
  let st := store_of {[ "s1" := session_of "s1" "active" None ]} ∅ in
  (DataVisualizer.endAttendanceSession env10 "s1" "t9" st).2 = st.
Proof.
  intros st.
  exact (proj1 (refused_calls_write_nothing env10 st) "s1" "t9" _ _ eq_refl).
Defined.
